(** * Academic Analyzer front end: the page handlers and the library's
      filter and sort, embedded from the TypeScript sources

    The development follows the source files:
    - [src/unnamed/part_000]: the axios wrapper [apiService] (imported by
      the pages as [@/lib/api]);
    - [src/unnamed/part_003]: the ask page ([AskPage]);
    - [src/unnamed/part_004]: the upload page ([UploadPage]);
    - [app/tutor/page.tsx]: the tutor page ([TutorPage]);
    - [app/analytics/page.tsx]: the analytics page, and after it in the
      same file the dashboard and the research page ([AnalyticsPage],
      [Dashboard], [ResearchPage]);
    - [app/lbrary/page.tsx]: the document library ([LibraryPage]).

    Modelling conventions.
    - A JavaScript string is a [string] of code units; the model covers the
      code units below 256 (Latin-1), on which [toLowerCase] and [trim] are
      written out.
    - A JavaScript number is [NaN] or a finite rational; the infinities are
      not modelled.  On finite doubles the sign of a difference is the sign
      of the exact difference, which is all the comparators use.
    - A handler runs in a small state-and-exception monad over the page's
      React state, the log of HTTP requests, the log of toasts, the clock and
      the heap of arrays.  An [await] is a call to the [backend] oracle: a
      handler runs to completion before the next event is taken.  The
      [preventDefault] of a form event and the writes to the console have
      no counterpart. *)

From Stdlib Require Import String Ascii ZArith QArith List Permutation Sorted Lia.
From Stdlib Require Import DecimalString Lqa.
From stdpp Require Import base list gmap sorting.

Set Warnings "-register-all".

Local Open Scope string_scope.
Local Open Scope list_scope.

(** ** JavaScript strings *)

Module JSString.

(** [String.prototype.toLowerCase] on one code unit below 256: A-Z and the
    Latin-1 capitals U+00C0-U+00DE (without U+00D7) move up by 32. *)
Definition lower_unit (c : ascii) : ascii :=
  let n := N_of_ascii c in
  if (((65 <=? n) && (n <=? 90)) ||
      ((192 <=? n) && (n <=? 222) && negb (n =? 215)))%N
  then ascii_of_N (n + 32) else c.

Fixpoint toLowerCase (s : string) : string :=
  match s with
  | EmptyString => EmptyString
  | String c s' => String (lower_unit c) (toLowerCase s')
  end.

(** [startsWith]: [p] is a prefix of [s]. *)
Fixpoint startsWith (s p : string) {struct p} : bool :=
  match p, s with
  | EmptyString, _ => true
  | String _ _, EmptyString => false
  | String a p', String b s' => Ascii.eqb a b && startsWith s' p'
  end.

(** [String.prototype.includes]: [sub] occurs in [s] at some position. *)
Fixpoint includes (s sub : string) : bool :=
  startsWith s sub ||
  match s with
  | EmptyString => false
  | String _ s' => includes s' sub
  end.

(** The white space and line terminators of ECMAScript below 256. *)
Definition isWhiteSpace (c : ascii) : bool :=
  let n := N_of_ascii c in
  (((9 <=? n) && (n <=? 13)) || (n =? 32) || (n =? 160))%N.

Fixpoint trimStart (s : string) : string :=
  match s with
  | EmptyString => EmptyString
  | String c s' => if isWhiteSpace c then trimStart s' else s
  end.

(** [trimEnd] keeps a character when it is not white space or when
    something is kept after it. *)
Fixpoint trimEnd (s : string) : string :=
  match s with
  | EmptyString => EmptyString
  | String c s' =>
      match trimEnd s' with
      | EmptyString => if isWhiteSpace c then EmptyString else String c EmptyString
      | t => String c t
      end
  end.

Definition trim (s : string) : string := trimEnd (trimStart s).

(** Truthiness of a string: the empty string is the only falsy one. *)
Definition truthy (s : string) : bool :=
  match s with EmptyString => false | String _ _ => true end.

Fixpoint allWhiteSpace (s : string) : bool :=
  match s with
  | EmptyString => true
  | String c s' => isWhiteSpace c && allWhiteSpace s'
  end.

End JSString.

(** ** JavaScript numbers *)

Module JSNumber.

Inductive number : Type :=
| NaN : number
| Fin (q : Q) : number.

Definition ofZ (z : Z) : number := Fin (inject_Z z).

(** [x - y]: [NaN] as soon as one operand is. *)
Definition sub (x y : number) : number :=
  match x, y with
  | Fin a, Fin b => Fin (a - b)%Q
  | _, _ => NaN
  end.

Definition isFinite (x : number) : bool :=
  match x with NaN => false | Fin _ => true end.

(** [x >= y] as JavaScript evaluates it: false when an operand is [NaN]. *)
Definition ge (x y : number) : Prop :=
  match x, y with
  | Fin a, Fin b => (b <= a)%Q
  | _, _ => False
  end.

End JSNumber.

Import JSString.
Abbreviation number := JSNumber.number.


(** ** JavaScript arrays: [Array.prototype.sort] *)

Module JSArray.

Section Sort.
Context {A : Type} (comparefn : A -> A -> number).

(** [SortCompare] of ECMAScript: the comparator's result, a [NaN] read as +0. *)
Definition SortCompare (x y : A) : Q :=
  match comparefn x y with
  | JSNumber.NaN => 0%Q
  | JSNumber.Fin v => v
  end.

(** [comparefn(y, x) > 0]: [y] has to move behind [x]. *)
Definition movesBehind (y x : A) : bool := negb (Qle_bool (SortCompare y x) 0).

(** One step of the insertion sort the engines run on short arrays: [x] is
    walked leftwards from the end of the sorted prefix while its neighbour
    has to move behind it.  The prefix is held reversed (last element
    first), so the walk is a recursion on it. *)
Fixpoint insert_back (x : A) (racc : list A) : list A :=
  match racc with
  | [] => [x]
  | y :: r => if movesBehind y x then y :: insert_back x r else x :: y :: r
  end.

(** ECMAScript leaves the algorithm to the engine.  This one is stable (an
    element never passes one it compares equal to), as the standard asks,
    and reads a [NaN] of the comparator as "equal", as the standard asks. *)
Definition sort (l : list A) : list A :=
  rev (fold_left (fun racc x => insert_back x racc) l []).

End Sort.

(** [Array.prototype.includes] on an array of strings. *)
Definition includes (l : list string) (s : string) : bool :=
  existsb (String.eqb s) l.

(** [Array.prototype.slice(0, n)]. *)
Definition slice0 {A : Type} (n : nat) (l : list A) : list A := firstn n l.

Arguments slice0 : simpl never.

End JSArray.

(** ** Dates: a parser for the library's own time stamps *)

Module JSDate.

Definition digit (c : ascii) : option Z :=
  let n := N_of_ascii c in
  if ((48 <=? n) && (n <=? 57))%N then Some (Z.of_N n - 48)%Z else None.

(** The decimal number written by [s], when [s] is made of digits only. *)
Fixpoint digits (acc : Z) (s : string) : option Z :=
  match s with
  | EmptyString => Some acc
  | String c s' =>
      match digit c with
      | Some d => digits (10 * acc + d)%Z s'
      | None => None
      end
  end.

Definition isLeap (y : Z) : bool :=
  ((y mod 4 =? 0) && (negb (y mod 100 =? 0) || (y mod 400 =? 0)))%Z.

Definition daysInMonth (y m : Z) : Z :=
  (if m =? 2 then (if isLeap y then 29 else 28)
   else if (m =? 4) || (m =? 6) || (m =? 9) || (m =? 11) then 30 else 31)%Z.

(** Days from 1970-01-01 to the civil date [y]-[m]-[d] (proleptic Gregorian). *)
Definition daysFromCivil (y m d : Z) : Z :=
  (let y' := if m <=? 2 then y - 1 else y in
   let era := y' / 400 in
   let yoe := y' - era * 400 in
   let mp := (m + 9) mod 12 in
   let doy := (153 * mp + 2) / 5 + d - 1 in
   let doe := yoe * 365 + yoe / 4 - yoe / 100 + doy in
   era * 146097 + doe - 719468)%Z.

(** [new Date(s).getTime()] for the format [YYYY-MM-DDTHH:mm:ssZ] the
    library's documents carry; every other string reads as an invalid date,
    whose time value is [NaN].  A runtime's parser accepts more formats: the
    theorems on the sort are stated for an arbitrary parser, and this one
    instantiates it in the examples. *)
Definition getTime (s : string) : number :=
  let field i n := digits 0 (substring i n s) in
  let sep i c := String.eqb (substring i 1 s) c in
  if negb ((String.length s =? 20)%nat && sep 4%nat "-" && sep 7%nat "-" &&
           sep 10%nat "T" && sep 13%nat ":" && sep 16%nat ":" && sep 19%nat "Z")
  then JSNumber.NaN
  else
    match field 0%nat 4%nat, field 5%nat 2%nat, field 8%nat 2%nat,
          field 11%nat 2%nat, field 14%nat 2%nat, field 17%nat 2%nat with
    | Some y, Some m, Some d, Some hh, Some mm, Some ss =>
        if ((1 <=? m) && (m <=? 12) && (1 <=? d) && (d <=? daysInMonth y m) &&
            (hh <=? 23) && (mm <=? 59) && (ss <=? 59))%Z
        then JSNumber.ofZ ((((daysFromCivil y m d * 24 + hh) * 60 + mm) * 60 + ss) * 1000)%Z
        else JSNumber.NaN
    | _, _, _, _, _, _ => JSNumber.NaN
    end.

End JSDate.

(** A reference collation for the examples: the order of the code units. *)
Fixpoint codeUnitCompare (a b : string) : Z :=
  match a, b with
  | EmptyString, EmptyString => 0%Z
  | EmptyString, String _ _ => (-1)%Z
  | String _ _, EmptyString => 1%Z
  | String x a', String y b' =>
      match (N_of_ascii x ?= N_of_ascii y)%N with
      | Lt => (-1)%Z
      | Gt => 1%Z
      | Eq => codeUnitCompare a' b'
      end
  end.

(** ** Values exchanged with the backend *)

(** The payloads are untyped on the client ([response.data] is [any]): a
    value is a JSON value or [undefined]. *)
Inductive value : Type :=
| VUndefined
| VNull
| VBool (b : bool)
| VNum (n : number)
| VStr (s : string)
| VArr (items : list value)
| VObj (fields : list (string * value)).

Fixpoint assoc (k : string) (fields : list (string * value)) : value :=
  match fields with
  | [] => VUndefined
  | (k', v) :: rest => if String.eqb k k' then v else assoc k rest
  end.

(** [v.k]: a [TypeError] ([None]) on [null] and [undefined], the field of an
    object, [undefined] on every other value (the keys read by the pages
    are no properties of strings, numbers or arrays). *)
Definition getProp (v : value) (k : string) : option value :=
  match v with
  | VUndefined | VNull => None
  | VObj fields => Some (assoc k fields)
  | _ => Some VUndefined
  end.

(** [Number.prototype.toString] on an integer below 10^21. *)
Definition toString (z : Z) : string := NilZero.string_of_int (Z.to_int z).

(** The [Document] of the gateway, with the two optional fields the library
    page adds. *)
Record Document : Type := {
  document_id : string;
  filename : string;
  subject : string;
  upload_date : string;
  complexity_score : number;
  chunk_count : number;
  file_size_mb : option number;
  status : option string
}.

(** ** HTTP requests, toasts and the world a handler runs in *)

Inductive Method : Type := GET | POST.

Record File : Type := { file_name : string; file_type : string; file_size : Z }.

Inductive FormValue : Type :=
| FormFile (f : File)
| FormString (s : string).

Inductive Body : Type :=
| NoBody
| JsonBody (v : value)
| FormBody (entries : list (string * FormValue)).

Record Request : Type := {
  method : Method;
  url : string;
  params : list (string * string);
  contentType : string;
  body : Body
}.

(** What an awaited request settles to: a rejected promise (network failure
    or a status outside 2xx) or the [data] of the response. *)
Inductive Response : Type :=
| Rejected
| Resolved (data : value).

Inductive ToastLevel : Type := ToastError | ToastSuccess.

Record Toast : Type := { level : ToastLevel; text : string }.

(** The world: the page's React state [view], the requests issued so far,
    the toasts shown so far, the number of clock readings taken, the heap of
    document arrays, and the environment's behaviour: what the backend
    answers to the [n]-th request and what the clock shows at its [n]-th
    reading. *)
Record World (S : Type) : Type := {
  view : S;
  requests : list Request;
  toasts : list Toast;
  ticks : nat;
  heap : gmap nat (list Document);
  backend : nat -> Request -> Response;
  clock : nat -> Z
}.

Arguments view {S} _.
Arguments requests {S} _.
Arguments toasts {S} _.
Arguments ticks {S} _.
Arguments heap {S} _.
Arguments backend {S} _ _ _.
Arguments clock {S} _ _.

Inductive outcome (A : Type) : Type :=
| Return (a : A)
| Throw.

Arguments Return {A} _.
Arguments Throw {A}.

(** A computation over the world that returns or throws. *)
Definition Eff (S A : Type) : Type := World S -> outcome A * World S.

Section Monad.
Context {S : Type}.

Definition ret {A : Type} (a : A) : Eff S A := fun w => (Return a, w).

Definition bind {A B : Type} (m : Eff S A) (k : A -> Eff S B) : Eff S B :=
  fun w =>
    match m w with
    | (Return a, w') => k a w'
    | (Throw, w') => (Throw, w')
    end.

(** [try { body } catch { handler } finally { final }]: what [body] did
    before it threw stays done. *)
Definition tryCatchFinally (body handler final : Eff S unit) : Eff S unit :=
  fun w =>
    let '(r1, w1) := body w in
    let '(r2, w2) := match r1 with Return _ => (Return tt, w1) | Throw => handler w1 end in
    let '(r3, w3) := final w2 in
    (match r3 with Return _ => r2 | Throw => Throw end, w3).

Definition tryCatch (body handler : Eff S unit) : Eff S unit :=
  tryCatchFinally body handler (ret tt).

(** The state a handler reads is the one its closure captured when the
    component rendered; the setters act on the current state. *)
Definition getView : Eff S S := fun w => (Return (view w), w).

Definition setView (f : S -> S) : Eff S unit :=
  fun w =>
    (Return tt,
     {| view := f (view w); requests := requests w; toasts := toasts w;
        ticks := ticks w; heap := heap w; backend := backend w; clock := clock w |}).

Definition toast (lv : ToastLevel) (msg : string) : Eff S unit :=
  fun w =>
    (Return tt,
     {| view := view w; requests := requests w;
        toasts := toasts w ++ [{| level := lv; text := msg |}];
        ticks := ticks w; heap := heap w; backend := backend w; clock := clock w |}).

(** [Date.now()] and [new Date()]: one reading of the clock. *)
Definition Date_now : Eff S Z :=
  fun w =>
    (Return (clock w (ticks w)),
     {| view := view w; requests := requests w; toasts := toasts w;
        ticks := Datatypes.S (ticks w); heap := heap w; backend := backend w;
        clock := clock w |}).

(** [await api.request(req)]: the request is logged, the backend's answer
    to it decides between the data and a throw. *)
Definition send (req : Request) : Eff S value :=
  fun w =>
    let w' := {| view := view w; requests := requests w ++ [req]; toasts := toasts w;
                 ticks := ticks w; heap := heap w; backend := backend w;
                 clock := clock w |} in
    match backend w (length (requests w)) req with
    | Rejected => (Throw, w')
    | Resolved data => (Return data, w')
    end.

(** [v.k] inside a handler. *)
Definition prop (v : value) (k : string) : Eff S value :=
  fun w =>
    match getProp v k with
    | Some x => (Return x, w)
    | None => (Throw, w)
    end.

(** Arrays live in the heap: a page holds references to them. *)
Definition Array_read (l : nat) : Eff S (list Document) :=
  fun w =>
    match heap w !! l with
    | Some a => (Return a, w)
    | None => (Throw, w)
    end.

Definition Array_store (l : nat) (a : list Document) : Eff S unit :=
  fun w =>
    (Return tt,
     {| view := view w; requests := requests w; toasts := toasts w;
        ticks := ticks w; heap := <[l := a]> (heap w); backend := backend w;
        clock := clock w |}).

Definition Array_new (a : list Document) : Eff S nat :=
  fun w => bind (Array_store (fresh (dom (heap w))) a)
             (fun _ => ret (fresh (dom (heap w)))) w.

End Monad.

Notation "x <- m ;; k" := (bind m (fun x => k))
  (at level 100, m at next level, right associativity).
Notation "m ;;; k" := (bind m (fun _ => k))
  (at level 100, right associativity).

(** [Array.prototype.filter]: a new array. *)
Definition Array_filter {S : Type} (l : nat) (p : Document -> bool) : Eff S nat :=
  a <- Array_read l ;; Array_new (List.filter p a).

(** [[...a]]: a new array with the same elements. *)
Definition Array_spread {S : Type} (l : nat) : Eff S nat :=
  a <- Array_read l ;; Array_new a.

(** [Array.prototype.sort]: sorts the array in place and returns it. *)
Definition Array_sort {S : Type} (l : nat) (comparefn : Document -> Document -> number)
  : Eff S nat :=
  a <- Array_read l ;; Array_store l (JSArray.sort comparefn a) ;;; ret l.

(** The world after a computation. *)
Definition exec {S A : Type} (m : Eff S A) (w : World S) : World S := snd (m w).

(** ** The gateway [apiService] ([src/unnamed/part_000]) *)

Module apiService.

Section Api.
Context {S : Type}.

Definition uploadPDF (file : File) (subject userId : string) : Eff S value :=
  send {| method := POST; url := "/upload_pdf"; params := [];
          contentType := "multipart/form-data";
          body := FormBody [("file", FormFile file);
                            ("subject", FormString subject);
                            ("user_id", FormString userId)] |}.

(** [documentId] has the default ['all']: it is taken when the argument is
    [undefined] ([None]). *)
Definition askQuestion (question : string) (documentId : option string) (userId : string)
  : Eff S value :=
  send {| method := POST; url := "/ask"; params := [];
          contentType := "application/json";
          body := JsonBody (VObj [("question", VStr question);
                                 ("document_id", VStr (default "all" documentId));
                                 ("user_id", VStr userId)]) |}.

Definition getAnalytics (userId : string) (timeRange : option string) : Eff S value :=
  send {| method := GET; url := "/analytics/progress/" ++ userId;
          params := [("time_range", default "30days" timeRange)];
          contentType := "application/json"; body := NoBody |}.

Definition getDashboard (userId : string) : Eff S value :=
  send {| method := GET; url := "/visualizations/dashboard/" ++ userId; params := [];
          contentType := "application/json"; body := NoBody |}.

Definition chatTutor (message : string) (context : option string) : Eff S value :=
  send {| method := POST; url := "/agents/tutor"; params := [];
          contentType := "application/json";
          body := JsonBody (VObj [("question", VStr message);
                                 ("context", VStr (default "" context))]) |}.

Definition getResearchSuggestions (topic : string) : Eff S value :=
  send {| method := POST; url := "/agents/researcher"; params := [];
          contentType := "application/json";
          body := JsonBody (VObj [("topic", VStr topic)]) |}.

Definition submitFeedback (interactionId : string) (rating : number)
  (comments : option string) : Eff S value :=
  send {| method := POST; url := "/feedback"; params := [];
          contentType := "application/json";
          body := JsonBody (VObj [("interaction_id", VStr interactionId);
                                 ("rating", VNum rating);
                                 ("comments", VStr (default "" comments))]) |}.

End Api.

End apiService.

(** ** The ask page ([src/unnamed/part_003]) *)

Module AskPage.

Inductive MessageType : Type := user | assistant.

Record Message : Type := {
  id : string;
  type : MessageType;
  content : value;
  timestamp : Z;
  sources : value;
  tutor_explanation : value;
  interaction_id : value
}.

Record State : Type := {
  messages : list Message;
  input : string;
  loading : bool;
  selectedDocument : string
}.

Definition initial : State :=
  {| messages := []; input := ""; loading := false; selectedDocument := "all" |}.

Definition setMessages (f : list Message -> list Message) : Eff State unit :=
  setView (fun s => {| messages := f (messages s); input := input s;
                       loading := loading s; selectedDocument := selectedDocument s |}).

Definition setInput (v : string) : Eff State unit :=
  setView (fun s => {| messages := messages s; input := v;
                       loading := loading s; selectedDocument := selectedDocument s |}).

Definition setLoading (b : bool) : Eff State unit :=
  setView (fun s => {| messages := messages s; input := input s;
                       loading := b; selectedDocument := selectedDocument s |}).

(** The submit handler of the question form.  The fields of the assistant
    message are evaluated in the order of the object literal. *)
Definition handleSubmit : Eff State unit :=
  s <- getView ;;
  if negb (truthy (trim (input s))) || loading s then ret tt
  else
    now <- Date_now ;;
    date <- Date_now ;;
    let userMessage :=
      {| id := toString now; type := user; content := VStr (input s);
         timestamp := date; sources := VUndefined;
         tutor_explanation := VUndefined; interaction_id := VUndefined |} in
    setMessages (fun prev => prev ++ [userMessage]) ;;;
    setInput "" ;;;
    setLoading true ;;;
    tryCatchFinally
      (data <- apiService.askQuestion (input s) (Some (selectedDocument s)) "cli_user" ;;
       now' <- Date_now ;;
       answer <- prop data "answer" ;;
       date' <- Date_now ;;
       srcs <- prop data "sources" ;;
       expl <- prop data "tutor_explanation" ;;
       iid <- prop data "interaction_id" ;;
       let assistantMessage :=
         {| id := toString (now' + 1); type := assistant; content := answer;
            timestamp := date'; sources := srcs;
            tutor_explanation := expl; interaction_id := iid |} in
       setMessages (fun prev => prev ++ [assistantMessage]))
      (toast ToastError "Failed to get answer. Please try again.")
      (setLoading false).

Definition handleFeedback (interactionId : string) (rating : number) : Eff State unit :=
  tryCatch
    (apiService.submitFeedback interactionId rating None ;;;
     toast ToastSuccess "Thank you for your feedback!")
    (toast ToastError "Failed to submit feedback.").

(** The [disabled] attributes of the form's two controls. *)
Definition inputDisabled (s : State) : bool := loading s.
Definition sendDisabled (s : State) : bool := negb (truthy (trim (input s))) || loading s.

End AskPage.

(** ** The upload page ([src/unnamed/part_004]) *)

Module UploadPage.

Record State : Type := {
  file : option File;
  subject : string;
  uploading : bool;
  uploadResult : value
}.

Definition initial : State :=
  {| file := None; subject := ""; uploading := false; uploadResult := VNull |}.

Definition setFile (f : option File) : Eff State unit :=
  setView (fun s => {| file := f; subject := subject s;
                       uploading := uploading s; uploadResult := uploadResult s |}).

Definition setSubject (v : string) : Eff State unit :=
  setView (fun s => {| file := file s; subject := v;
                       uploading := uploading s; uploadResult := uploadResult s |}).

Definition setUploading (b : bool) : Eff State unit :=
  setView (fun s => {| file := file s; subject := subject s;
                       uploading := b; uploadResult := uploadResult s |}).

Definition setUploadResult (v : value) : Eff State unit :=
  setView (fun s => {| file := file s; subject := subject s;
                       uploading := uploading s; uploadResult := v |}).

(** [handleFileChange] with the first selected file, if any. *)
Definition handleFileChange (selectedFile : option File) : Eff State unit :=
  match selectedFile with
  | Some f =>
      if String.eqb (file_type f) "application/pdf" then setFile (Some f)
      else toast ToastError "Invalid file type. Please select a PDF file."
  | None => ret tt
  end.

Definition handleUpload : Eff State unit :=
  s <- getView ;;
  match file s, truthy (trim (subject s)) with
  | Some f, true =>
      setUploading true ;;;
      tryCatchFinally
        (data <- apiService.uploadPDF f (subject s) "cli_user" ;;
         setUploadResult data ;;;
         toast ToastSuccess
           "Upload successful! Your document has been processed and is ready for questions." ;;;
         setFile None ;;;
         setSubject "")
        (toast ToastError
           "Upload failed. There was an error uploading your document. Please try again.")
        (setUploading false)
  | _, _ => toast ToastError "Please select a file and enter a subject."
  end.

Definition uploadDisabled (s : State) : bool :=
  negb (bool_decide (is_Some (file s))) || negb (truthy (subject s)) || uploading s.

End UploadPage.

(** ** The tutor page ([app/tutor/page.tsx]) *)

Module TutorPage.

Inductive MessageType : Type := user | tutor.

Record TutorMessage : Type := {
  id : string;
  type : MessageType;
  content : value;
  timestamp : Z;
  category : option string
}.

Record State : Type := {
  messages : list TutorMessage;
  message : string;
  loading : bool
}.

Definition initial : State := {| messages := []; message := ""; loading := false |}.

Definition setMessages (f : list TutorMessage -> list TutorMessage) : Eff State unit :=
  setView (fun s => {| messages := f (messages s); message := message s;
                       loading := loading s |}).

Definition setMessage (v : string) : Eff State unit :=
  setView (fun s => {| messages := messages s; message := v; loading := loading s |}).

Definition setLoading (b : bool) : Eff State unit :=
  setView (fun s => {| messages := messages s; message := message s; loading := b |}).

(** [inputMessage || message]: the argument when it is given and not empty. *)
Definition handleSend (inputMessage : option string) : Eff State unit :=
  s <- getView ;;
  let messageToSend :=
    match inputMessage with
    | Some m => if truthy m then m else message s
    | None => message s
    end in
  if negb (truthy (trim messageToSend)) || loading s then ret tt
  else
    now <- Date_now ;;
    date <- Date_now ;;
    let userMessage :=
      {| id := toString now; type := user; content := VStr messageToSend;
         timestamp := date; category := None |} in
    setMessages (fun prev => prev ++ [userMessage]) ;;;
    setMessage "" ;;;
    setLoading true ;;;
    tryCatchFinally
      (data <- apiService.chatTutor messageToSend None ;;
       now' <- Date_now ;;
       reply <- prop data "response" ;;
       date' <- Date_now ;;
       let tutorMessage :=
         {| id := toString (now' + 1); type := tutor; content := reply;
            timestamp := date'; category := Some "Response" |} in
       setMessages (fun prev => prev ++ [tutorMessage]))
      (toast ToastError "Something went wrong.")
      (setLoading false).

Definition handleSubmit : Eff State unit := handleSend None.

Definition inputDisabled (s : State) : bool := loading s.
Definition sendDisabled (s : State) : bool := negb (truthy (trim (message s))) || loading s.

End TutorPage.

(** ** The research page (third component of [app/analytics/page.tsx]) *)

Module ResearchPage.

Record State : Type := {
  topic : string;
  suggestions : value;
  loading : bool;
  searchHistory : list string
}.

Definition initial : State :=
  {| topic := ""; suggestions := VStr ""; loading := false; searchHistory := [] |}.

Definition setTopic (v : string) : Eff State unit :=
  setView (fun s => {| topic := v; suggestions := suggestions s;
                       loading := loading s; searchHistory := searchHistory s |}).

Definition setSuggestions (v : value) : Eff State unit :=
  setView (fun s => {| topic := topic s; suggestions := v;
                       loading := loading s; searchHistory := searchHistory s |}).

Definition setLoading (b : bool) : Eff State unit :=
  setView (fun s => {| topic := topic s; suggestions := suggestions s;
                       loading := b; searchHistory := searchHistory s |}).

Definition setSearchHistory (f : list string -> list string) : Eff State unit :=
  setView (fun s => {| topic := topic s; suggestions := suggestions s;
                       loading := loading s; searchHistory := f (searchHistory s) |}).

Definition handleSearch : Eff State unit :=
  s <- getView ;;
  if negb (truthy (trim (topic s))) then ret tt
  else
    setLoading true ;;;
    tryCatchFinally
      (data <- apiService.getResearchSuggestions (topic s) ;;
       sug <- prop data "suggestions" ;;
       setSuggestions sug ;;;
       (if negb (JSArray.includes (searchHistory s) (topic s))
        then setSearchHistory (fun prev => topic s :: JSArray.slice0 9 prev)
        else ret tt) ;;;
       toast ToastSuccess "Operation completed successfully.")
      (toast ToastError "Something went wrong.")
      (setLoading false).

Definition handleSubmit : Eff State unit := handleSearch.

(** One search as the user performs it: the topic is typed or picked, then
    the form is submitted. *)
Definition search (t : string) : Eff State unit := setTopic t ;;; handleSubmit.

Definition inputDisabled (s : State) : bool := loading s.
Definition searchDisabled (s : State) : bool := loading s || negb (truthy (trim (topic s))).

End ResearchPage.

(** ** The analytics page and the dashboard (first and second component
       of [app/analytics/page.tsx]) *)

Module AnalyticsPage.

Record State : Type := {
  analytics : value;
  loading : bool;
  timeRange : string
}.

Definition initial : State :=
  {| analytics := VNull; loading := true; timeRange := "30days" |}.

Definition setAnalytics (v : value) : Eff State unit :=
  setView (fun s => {| analytics := v; loading := loading s; timeRange := timeRange s |}).

Definition setLoading (b : bool) : Eff State unit :=
  setView (fun s => {| analytics := analytics s; loading := b; timeRange := timeRange s |}).

Definition setTimeRange (r : string) : Eff State unit :=
  setView (fun s => {| analytics := analytics s; loading := loading s; timeRange := r |}).

(** The effect run on mount and whenever the time range changes. *)
Definition fetchAnalytics : Eff State unit :=
  s <- getView ;;
  tryCatchFinally
    (data <- apiService.getAnalytics "cli_user" (Some (timeRange s)) ;;
     setAnalytics data)
    (toast ToastError "Something went wrong.")
    (setLoading false).

End AnalyticsPage.

Module Dashboard.

Record State : Type := {
  analytics : value;
  loading : bool
}.

Definition initial : State := {| analytics := VNull; loading := true |}.

Definition setAnalytics (v : value) : Eff State unit :=
  setView (fun s => {| analytics := v; loading := loading s |}).

Definition setLoading (b : bool) : Eff State unit :=
  setView (fun s => {| analytics := analytics s; loading := b |}).

(** The effect run on mount; its [catch] only writes to the console. *)
Definition fetchAnalytics : Eff State unit :=
  tryCatchFinally
    (data <- apiService.getAnalytics "cli_user" None ;;
     setAnalytics data)
    (ret tt)
    (setLoading false).

End Dashboard.

(** ** The document library ([app/lbrary/page.tsx]) *)

Module LibraryPage.

(** [documents] is a reference to the array held by the state. *)
Record State : Type := {
  documents : nat;
  loading : bool;
  searchTerm : string;
  sortBy : string;
  filterBy : string
}.

Definition sampleDocs : list Document :=
  [ {| document_id := "doc_001"; filename := "Machine Learning Fundamentals.pdf";
       subject := "Machine Learning"; upload_date := "2024-01-15T10:30:00Z";
       complexity_score := JSNumber.Fin (3 # 4); chunk_count := JSNumber.ofZ 45;
       file_size_mb := Some (JSNumber.Fin (25 # 2)); status := Some "active" |};
    {| document_id := "doc_002"; filename := "Introduction to Neural Networks.pdf";
       subject := "Deep Learning"; upload_date := "2024-01-10T14:20:00Z";
       complexity_score := JSNumber.Fin (17 # 20); chunk_count := JSNumber.ofZ 38;
       file_size_mb := Some (JSNumber.Fin (87 # 10)); status := Some "active" |};
    {| document_id := "doc_003"; filename := "Data Science Methods.pdf";
       subject := "Data Science"; upload_date := "2024-01-05T09:15:00Z";
       complexity_score := JSNumber.Fin (13 # 20); chunk_count := JSNumber.ofZ 52;
       file_size_mb := Some (JSNumber.Fin (76 # 5)); status := Some "active" |} ].

Section Runtime.

(** The runtime's [new Date(s).getTime()] and [a.localeCompare(b)]. *)
Variable Date_getTime : string -> number.
Variable localeCompare : string -> string -> Z.

(** The callback of [documents.filter]. *)
Definition matchesDocument (searchTerm filterBy : string) (doc : Document) : bool :=
  let matchesSearch :=
    includes (toLowerCase (filename doc)) (toLowerCase searchTerm) ||
    includes (toLowerCase (subject doc)) (toLowerCase searchTerm) in
  let matchesFilter := String.eqb filterBy "all" || String.eqb (subject doc) filterBy in
  matchesSearch && matchesFilter.

(** The callback of [sort]. *)
Definition compareDocuments (sortBy : string) (a b : Document) : number :=
  if String.eqb sortBy "upload_date" then
    JSNumber.sub (Date_getTime (upload_date b)) (Date_getTime (upload_date a))
  else if String.eqb sortBy "filename" then
    JSNumber.ofZ (localeCompare (filename a) (filename b))
  else if String.eqb sortBy "complexity" then
    JSNumber.sub (complexity_score b) (complexity_score a)
  else JSNumber.ofZ 0.

(** The two constants of the component as values of the lists they are
    computed from. *)
Definition filteredDocuments (docs : list Document) (searchTerm filterBy : string)
  : list Document :=
  List.filter (matchesDocument searchTerm filterBy) docs.

Definition sortedDocuments (filtered : list Document) (sortBy : string) : list Document :=
  JSArray.sort (compareDocuments sortBy) filtered.

(** The filter-then-sort of the library as one function of the list, the
    search text, the filter value and the sort key. *)
Definition sortFilter (docs : list Document) (searchTerm filterBy sortBy : string)
  : list Document :=
  sortedDocuments (filteredDocuments docs searchTerm filterBy) sortBy.

(** The same two statements as the component runs them on the heap:
    [documents.filter(...)] allocates, [[...filteredDocuments]] allocates a
    copy, [sort] sorts that copy in place and returns it. *)
Definition render : Eff State nat :=
  s <- getView ;;
  filtered <- Array_filter (documents s) (matchesDocument (searchTerm s) (filterBy s)) ;;
  copy <- Array_spread filtered ;;
  Array_sort copy (compareDocuments (sortBy s)).

End Runtime.

End LibraryPage.

(** * The vocabulary of the properties *)

(** The spec's words: [text] contains [s] when case is ignored. *)
Definition containsIgnoringCase (text s : string) : Prop :=
  exists pre post, toLowerCase text = (pre ++ toLowerCase s ++ post)%string.

(** What ECMAScript asks of a comparator for the order of [sort] to be
    defined, as far as the order of the output depends on it. *)
Record ConsistentComparator (cmp : string -> string -> Z) : Prop := {
  cmp_antisym : forall a b, Z.sgn (cmp b a) = (- Z.sgn (cmp a b))%Z;
  cmp_trans : forall a b c, (cmp a b <= 0)%Z -> (cmp b c <= 0)%Z -> (cmp a c <= 0)%Z
}.

(** Every document comes before the documents with a smaller or equal key. *)
Definition descendingBy (key : Document -> number) : list Document -> Prop :=
  StronglySorted (fun a b => JSNumber.ge (key a) (key b)).

(** Every document comes before the documents the collation puts after it
    or level with it. *)
Definition ascendingBy (cmp : string -> string -> Z) (key : Document -> string)
  : list Document -> Prop :=
  StronglySorted (fun a b => (cmp (key a) (key b) <= 0)%Z).

(** The weakest reading of a non-increasing sequence of numbers: the
    entries that are numbers do not increase, the [NaN] entries are passed
    over. *)
Definition nonIncreasing (ts : list number) : Prop :=
  forall (i j : nat) (a b : Q),
    (i < j)%nat -> ts !! i = Some (JSNumber.Fin a) -> ts !! j = Some (JSNumber.Fin b) ->
    (b <= a)%Q.

(** Three documents, the second with an upload date that is no date. *)
Definition undatedDocs : list Document :=
  [ {| document_id := "doc_003"; filename := "Data Science Methods.pdf";
       subject := "Data Science"; upload_date := "2024-01-05T09:15:00Z";
       complexity_score := JSNumber.Fin (13 # 20); chunk_count := JSNumber.ofZ 52;
       file_size_mb := None; status := None |};
    {| document_id := "doc_004"; filename := "Lecture Notes.pdf";
       subject := "Data Science"; upload_date := "unknown";
       complexity_score := JSNumber.Fin (1 # 2); chunk_count := JSNumber.ofZ 7;
       file_size_mb := None; status := None |};
    {| document_id := "doc_001"; filename := "Machine Learning Fundamentals.pdf";
       subject := "Machine Learning"; upload_date := "2024-01-15T10:30:00Z";
       complexity_score := JSNumber.Fin (3 # 4); chunk_count := JSNumber.ofZ 45;
       file_size_mb := None; status := None |} ].

(** A library page holding the sample documents, searched for "learning"
    and sorted by complexity; nothing was requested or shown yet. *)
Definition libraryWorld : World LibraryPage.State :=
  {| view := {| LibraryPage.documents := 0; LibraryPage.loading := false;
                LibraryPage.searchTerm := "Learning"; LibraryPage.sortBy := "complexity";
                LibraryPage.filterBy := "all" |};
     requests := []; toasts := []; ticks := 0;
     heap := {[ 0%nat := LibraryPage.sampleDocs ]};
     backend := fun _ _ => Rejected; clock := fun _ => 0%Z |}.

(** The [sources] entries of a message as the page's types declare them,
    their encoding as a payload, and the reading of a payload back into
    them. *)
Record Source : Type := {
  document : string;
  chunk_id : string;
  relevance_score : number;
  preview : string
}.

Definition sourceValue (s : Source) : value :=
  VObj [("document", VStr (document s)); ("chunk_id", VStr (chunk_id s));
        ("relevance_score", VNum (relevance_score s)); ("preview", VStr (preview s))].

Definition sourceOf (v : value) : option Source :=
  match getProp v "document", getProp v "chunk_id",
        getProp v "relevance_score", getProp v "preview" with
  | Some (VStr d), Some (VStr c), Some (VNum r), Some (VStr p) =>
      Some {| document := d; chunk_id := c; relevance_score := r; preview := p |}
  | _, _, _, _ => None
  end.

Fixpoint sourcesOfItems (items : list value) : option (list Source) :=
  match items with
  | [] => Some []
  | v :: rest =>
      match sourceOf v, sourcesOfItems rest with
      | Some s, Some l => Some (s :: l)
      | _, _ => None
      end
  end.

Definition sourcesOf (v : value) : option (list Source) :=
  match v with
  | VArr items => sourcesOfItems items
  | _ => None
  end.

(** The request [apiService.askQuestion] builds. *)
Definition askRequest (question documentId userId : string) : Request :=
  {| method := POST; url := "/ask"; params := [];
     contentType := "application/json";
     body := JsonBody (VObj [("question", VStr question);
                            ("document_id", VStr documentId);
                            ("user_id", VStr userId)]) |}.

(** An upload page on which a subject was typed but no file chosen. *)
Definition noFileWorld : World UploadPage.State :=
  {| view := {| UploadPage.file := None; UploadPage.subject := "Physics";
                UploadPage.uploading := false; UploadPage.uploadResult := VNull |};
     requests := []; toasts := []; ticks := 0; heap := ∅;
     backend := fun _ _ => Rejected; clock := fun _ => 0%Z |}.

(** An ask page with the given text in the input field, in front of a
    backend and a clock. *)
Definition askWorld (text : string) (server : nat -> Request -> Response)
  (time : nat -> Z) : World AskPage.State :=
  {| view := {| AskPage.messages := []; AskPage.input := text;
                AskPage.loading := false; AskPage.selectedDocument := "all" |};
     requests := []; toasts := []; ticks := 0; heap := ∅;
     backend := server; clock := time |}.

(** The stub of the spec's ask workflow: one source, one interaction id. *)
Definition stubSources : list Source :=
  [ {| document := "a.pdf"; chunk_id := "c1";
       relevance_score := JSNumber.Fin (9 # 10); preview := "..." |} ].

Definition stubAnswer : value :=
  VObj [("answer", VStr "X is..."); ("sources", VArr (map sourceValue stubSources));
        ("interaction_id", VStr "i1")].

(** A sequence of searches on the research page, one after the other. *)
Definition runSearches (ts : list string) (w : World ResearchPage.State)
  : World ResearchPage.State :=
  fold_left (fun w t => exec (ResearchPage.search t) w) ts w.

(** The request [apiService.getResearchSuggestions] builds. *)
Definition researchRequest (topic : string) : Request :=
  {| method := POST; url := "/agents/researcher"; params := [];
     contentType := "application/json";
     body := JsonBody (VObj [("topic", VStr topic)]) |}.

(** A search for [t] succeeds in [w]: [t] is not blank, the backend answers
    the request, and the answer is a payload [suggestions] can be read on. *)
Definition searchSucceeds (t : string) (w : World ResearchPage.State) : bool :=
  truthy (trim t) &&
  match backend w (length (requests w)) (researchRequest t) with
  | Resolved data => bool_decide (is_Some (getProp data "suggestions"))
  | Rejected => false
  end.

(** A research page as it is mounted, in front of a backend. *)
Definition researchWorld (server : nat -> Request -> Response)
  : World ResearchPage.State :=
  {| view := ResearchPage.initial; requests := []; toasts := []; ticks := 0;
     heap := ∅; backend := server; clock := fun _ => 0%Z |}.

(** A backend that answers every second request and rejects the others. *)
Definition flakyServer (n : nat) (req : Request) : Response :=
  if Nat.even n then Resolved (VObj [("suggestions", VStr "Read the survey.")])
  else Rejected.

(** ** The views and the gateway operations they invoke *)

(** One entry per gateway operation a view invokes. *)
Inductive Workflow : Type :=
| AskQuestion
| SubmitFeedback
| UploadDocument
| ChatWithTutor
| ResearchSearch
| AnalyticsFetch
| DashboardFetch.

Definition ViewState (wf : Workflow) : Type :=
  match wf with
  | AskQuestion | SubmitFeedback => AskPage.State
  | UploadDocument => UploadPage.State
  | ChatWithTutor => TutorPage.State
  | ResearchSearch => ResearchPage.State
  | AnalyticsFetch => AnalyticsPage.State
  | DashboardFetch => Dashboard.State
  end.

(** The view's loading flag. *)
Definition loadingFlag (wf : Workflow) : ViewState wf -> bool :=
  match wf with
  | AskQuestion | SubmitFeedback => AskPage.loading
  | UploadDocument => UploadPage.uploading
  | ChatWithTutor => TutorPage.loading
  | ResearchSearch => ResearchPage.loading
  | AnalyticsFetch => AnalyticsPage.loading
  | DashboardFetch => Dashboard.loading
  end.

(** The analytics and the dashboard views are mounted with the flag set;
    the other views start idle. *)
Definition startsLoading (wf : Workflow) : bool :=
  match wf with
  | AnalyticsFetch | DashboardFetch => true
  | _ => false
  end.

(** The [disabled] attributes of the view's controls that depend on its
    state. *)
Definition controls (wf : Workflow) : ViewState wf -> list bool :=
  match wf with
  | AskQuestion | SubmitFeedback =>
      fun s => [AskPage.inputDisabled s; AskPage.sendDisabled s]
  | UploadDocument => fun s => [UploadPage.uploadDisabled s]
  | ChatWithTutor => fun s => [TutorPage.inputDisabled s; TutorPage.sendDisabled s]
  | ResearchSearch => fun s => [ResearchPage.inputDisabled s; ResearchPage.searchDisabled s]
  | AnalyticsFetch => fun _ => []
  | DashboardFetch => fun _ => []
  end.

(** The arguments of the handler that issues the call. *)
Definition Args (wf : Workflow) : Type :=
  match wf with
  | SubmitFeedback => (string * number)%type
  | ChatWithTutor => option string
  | _ => unit
  end.

Definition handler (wf : Workflow) : Args wf -> Eff (ViewState wf) unit :=
  match wf with
  | AskQuestion => fun _ => AskPage.handleSubmit
  | SubmitFeedback => fun a => AskPage.handleFeedback (fst a) (snd a)
  | UploadDocument => fun _ => UploadPage.handleUpload
  | ChatWithTutor => fun a => TutorPage.handleSend a
  | ResearchSearch => fun _ => ResearchPage.handleSearch
  | AnalyticsFetch => fun _ => AnalyticsPage.fetchAnalytics
  | DashboardFetch => fun _ => Dashboard.fetchAnalytics
  end.

(** What the user enters before trying again. *)
Definition Edit (wf : Workflow) : Type :=
  match wf with
  | UploadDocument => (option File * string)%type
  | DashboardFetch => unit
  | _ => string
  end.

Definition edit (wf : Workflow) : Edit wf -> Eff (ViewState wf) unit :=
  match wf with
  | AskQuestion | SubmitFeedback => fun e => AskPage.setInput e
  | UploadDocument =>
      fun e => UploadPage.handleFileChange (fst e) ;;; UploadPage.setSubject (snd e)
  | ChatWithTutor => fun e => TutorPage.setMessage e
  | ResearchSearch => fun e => ResearchPage.setTopic e
  | AnalyticsFetch => fun e => AnalyticsPage.setTimeRange e
  | DashboardFetch => fun _ => ret tt
  end.

(** The entry is one the handler accepts. *)
Definition ready (wf : Workflow) : Edit wf -> bool :=
  match wf with
  | AskQuestion | SubmitFeedback => fun e => truthy (trim e)
  | UploadDocument =>
      fun e =>
        match fst e with
        | Some f => String.eqb (file_type f) "application/pdf"
        | None => false
        end && truthy (trim (snd e))
  | ChatWithTutor => fun e => truthy (trim e)
  | ResearchSearch => fun e => truthy (trim e)
  | AnalyticsFetch => fun _ => true
  | DashboardFetch => fun _ => true
  end.

(** The backend rejects whatever it is sent. *)
Definition allRejected {S : Type} (w : World S) : Prop :=
  forall n req, backend w n req = Rejected.

(** An analytics page as it is mounted. *)
Definition analyticsWorld (server : nat -> Request -> Response)
  : World AnalyticsPage.State :=
  {| view := AnalyticsPage.initial; requests := []; toasts := []; ticks := 0;
     heap := ∅; backend := server; clock := fun _ => 0%Z |}.

(** * Proof automation *)

(** Unfolds the primitives of the monad and computes. *)
Ltac run_handler :=
  unfold exec, bind, ret, getView, setView, toast, Date_now, send, prop,
    tryCatch, tryCatchFinally in *; simpl in *.

(** Case analysis on an innermost scrutinee of the goal. *)
Ltac break_match :=
  match goal with
  | |- context [match ?x with _ => _ end] =>
      lazymatch x with
      | context [match _ with _ => _ end] => fail
      | _ => destruct x eqn:?
      end
  end.

(** Unfolds the handlers, the setters and the gateway. *)
Ltac unfold_pages :=
  unfold handler, edit, loadingFlag, controls, ready,
    AskPage.handleSubmit, AskPage.handleFeedback, AskPage.setMessages,
    AskPage.setInput, AskPage.setLoading, AskPage.inputDisabled, AskPage.sendDisabled,
    UploadPage.handleUpload, UploadPage.handleFileChange, UploadPage.setFile,
    UploadPage.setSubject, UploadPage.setUploading, UploadPage.setUploadResult,
    UploadPage.uploadDisabled,
    TutorPage.handleSend, TutorPage.setMessages, TutorPage.setMessage,
    TutorPage.setLoading, TutorPage.inputDisabled, TutorPage.sendDisabled,
    ResearchPage.handleSearch, ResearchPage.setTopic, ResearchPage.setSuggestions,
    ResearchPage.setLoading, ResearchPage.setSearchHistory,
    ResearchPage.inputDisabled, ResearchPage.searchDisabled,
    AnalyticsPage.fetchAnalytics, AnalyticsPage.setAnalytics, AnalyticsPage.setLoading,
    AnalyticsPage.setTimeRange,
    Dashboard.fetchAnalytics, Dashboard.setAnalytics, Dashboard.setLoading,
    apiService.askQuestion, apiService.submitFeedback, apiService.uploadPDF,
    apiService.chatTutor, apiService.getResearchSuggestions, apiService.getAnalytics
    in *.

(** * The rest of the pages: what the components compute and wire beside
      the handlers above *)

(** ** The library's badges and its subject menu ([app/lbrary/page.tsx]) *)

Module LibraryWidgets.

(** [x < y] as JavaScript evaluates it: false when an operand is [NaN]. *)
Definition lessThan (x y : number) : bool :=
  match x, y with
  | JSNumber.Fin a, JSNumber.Fin b => negb (Qle_bool b a)
  | _, _ => false
  end.

Record ComplexityLevel : Type := { label : string; color : string }.

(** The two thresholds are the decimals 0.4 and 0.7 of the source: a number
    stands for the decimal that prints it, which keeps every comparison
    between two numbers as JavaScript decides it. *)
Definition getComplexityLevel (score : number) : ComplexityLevel :=
  if lessThan score (JSNumber.Fin (2 # 5)) then
    {| label := "Basic"; color := "bg-green-500" |}
  else if lessThan score (JSNumber.Fin (7 # 10)) then
    {| label := "Intermediate"; color := "bg-yellow-500" |}
  else {| label := "Advanced"; color := "bg-red-500" |}.

(** A [Set] of strings is the list of its elements in the order they were
    added; [add] leaves the set alone when the element is in it. *)
Definition Set_add (s : list string) (x : string) : list string :=
  if JSArray.includes s x then s else s ++ [x].

(** [[...new Set(documents.map(doc => doc.subject))]]. *)
Definition subjects (documents : list Document) : list string :=
  fold_left Set_add (map subject documents) [].

End LibraryWidgets.



(** ** The ask page's controls ([src/unnamed/part_003]) *)

Module AskUI.

Definition setSelectedDocument (v : string) : Eff AskPage.State unit :=
  setView (fun s => {| AskPage.messages := AskPage.messages s;
                       AskPage.input := AskPage.input s;
                       AskPage.loading := AskPage.loading s;
                       AskPage.selectedDocument := v |}).

Definition quickQuestions : list string :=
  [ "What is the main topic of this document?";
    "Can you summarize the key points?";
    "What are the main conclusions?";
    "Explain the methodology used." ].

(** What the user can do on the page, control by control: type in the
    input, pick one of the quick questions, submit the form, press the
    thumbs of an answer that has an interaction id, press "All
    Documents".  (The copy button writes to the clipboard, which the world
    does not hold.) *)
Inductive Event : Type :=
| ChangeInput (text : string)
| ClickQuickQuestion (idx : nat)
| SubmitForm
| ClickThumbsUp (interactionId : string)
| ClickThumbsDown (interactionId : string)
| ClickAllDocuments.

Definition step (e : Event) : Eff AskPage.State unit :=
  match e with
  | ChangeInput text => AskPage.setInput text
  | ClickQuickQuestion idx =>
      match nth_error quickQuestions idx with
      | Some question => AskPage.setInput question
      | None => ret tt
      end
  | SubmitForm => AskPage.handleSubmit
  | ClickThumbsUp interactionId => AskPage.handleFeedback interactionId (JSNumber.ofZ 5)
  | ClickThumbsDown interactionId => AskPage.handleFeedback interactionId (JSNumber.ofZ 2)
  | ClickAllDocuments => setSelectedDocument "all"
  end.

Definition run (events : list Event) (w : World AskPage.State) : World AskPage.State :=
  fold_left (fun w e => exec (step e) w) events w.

(** Every assistant message comes directly after a user message;
    [afterUser] tells whether the message before the list is one. *)
Fixpoint answersFollowQuestions (afterUser : bool) (l : list AskPage.Message) : bool :=
  match l with
  | [] => true
  | m :: rest =>
      match AskPage.type m with
      | AskPage.user => answersFollowQuestions true rest
      | AskPage.assistant => afterUser && answersFollowQuestions false rest
      end
  end.

(** A request to [/ask] is a question that is not blank, asked over all
    documents by the one user the page knows. *)
Definition scopedToAll (req : Request) : Prop :=
  url req = "/ask" ->
  exists question,
    req = askRequest question "all" "cli_user" /\ allWhiteSpace question = false.

End AskUI.

(** A backend that answers every second request with the stub and rejects
    the others. *)
Definition flakyAnswers (n : nat) (req : Request) : Response :=
  if Nat.even n then Resolved stubAnswer else Rejected.

(** ** The upload page's controls ([src/unnamed/part_004]) *)

Module UploadUI.

(** What the user can do on the page: choose a file in the file input (or
    dismiss the dialog), type in the subject field, press the button. *)
Inductive Event : Type :=
| SelectFile (selectedFile : option File)
| ChangeSubject (text : string)
| ClickUpload.

Definition step (e : Event) : Eff UploadPage.State unit :=
  match e with
  | SelectFile selectedFile => UploadPage.handleFileChange selectedFile
  | ChangeSubject text => UploadPage.setSubject text
  | ClickUpload => UploadPage.handleUpload
  end.

Definition run (events : list Event) (w : World UploadPage.State)
  : World UploadPage.State :=
  fold_left (fun w e => exec (step e) w) events w.

(** The request [apiService.uploadPDF] builds. *)
Definition uploadRequest (f : File) (subject userId : string) : Request :=
  {| method := POST; url := "/upload_pdf"; params := [];
     contentType := "multipart/form-data";
     body := FormBody [("file", FormFile f);
                       ("subject", FormString subject);
                       ("user_id", FormString userId)] |}.

Definition isPdf (f : File) : Prop := file_type f = "application/pdf".

(** The file held by the page, if any, is a PDF. *)
Definition holdsPdf (s : UploadPage.State) : Prop :=
  forall f, UploadPage.file s = Some f -> isPdf f.

(** A request to [/upload_pdf] carries a PDF and a subject that is not
    blank, for the one user the page knows. *)
Definition pdfUpload (req : Request) : Prop :=
  url req = "/upload_pdf" ->
  exists f subject,
    req = uploadRequest f subject "cli_user" /\ isPdf f /\ allWhiteSpace subject = false.

End UploadUI.

(** An upload page with a file chosen and a subject typed, in front of a
    backend. *)
Definition uploadWorld (f : File) (subject : string)
  (server : nat -> Request -> Response) : World UploadPage.State :=
  {| view := {| UploadPage.file := Some f; UploadPage.subject := subject;
                UploadPage.uploading := false; UploadPage.uploadResult := VNull |};
     requests := []; toasts := []; ticks := 0; heap := ∅;
     backend := server; clock := fun _ => 0%Z |}.

Definition notesPdf : File :=
  {| file_name := "notes.pdf"; file_type := "application/pdf"; file_size := 1048576 |}.

Definition notesTxt : File :=
  {| file_name := "notes.txt"; file_type := "text/plain"; file_size := 2048 |}.

(** ** The tutor page ([app/tutor/page.tsx]) *)

(** The request [apiService.chatTutor] builds when no context is given. *)
Definition tutorRequest (message : string) : Request :=
  {| method := POST; url := "/agents/tutor"; params := [];
     contentType := "application/json";
     body := JsonBody (VObj [("question", VStr message); ("context", VStr "")]) |}.

(** A tutor page with a draft in the input field, in front of a backend. *)
Definition tutorWorld (draft : string) (server : nat -> Request -> Response)
  : World TutorPage.State :=
  {| view := {| TutorPage.messages := []; TutorPage.message := draft;
                TutorPage.loading := false |};
     requests := []; toasts := []; ticks := 0; heap := ∅;
     backend := server; clock := fun _ => 0%Z |}.

(** ** The analytics page's range buttons ([app/analytics/page.tsx]) *)

Module AnalyticsUI.

(** The request [apiService.getAnalytics] builds for the page's user. *)
Definition analyticsRequest (timeRange : string) : Request :=
  {| method := GET; url := "/analytics/progress/cli_user";
     params := [("time_range", timeRange)];
     contentType := "application/json"; body := NoBody |}.

(** A press on a range button calls [setTimeRange(range)].  The effect
    that fetches has [timeRange] among its dependencies: it runs again
    when the value has changed, and a press on the range that is selected
    changes nothing. *)
Definition clickRange (range : string) : Eff AnalyticsPage.State unit :=
  s <- getView ;;
  if String.eqb (AnalyticsPage.timeRange s) range then ret tt
  else AnalyticsPage.setTimeRange range ;;; AnalyticsPage.fetchAnalytics.

(** The page from its mount on: the effect runs once, then the user
    presses range buttons. *)
Definition session (ranges : list string) (w : World AnalyticsPage.State)
  : World AnalyticsPage.State :=
  fold_left (fun w r => exec (clickRange r) w) ranges
    (exec AnalyticsPage.fetchAnalytics w).

End AnalyticsUI.

(** ** The dashboard's counters (second component of [app/analytics/page.tsx]) *)

Module DashboardUI.

(** Truthiness of a value: [undefined], [null], [false], [0], [NaN] and
    the empty string are falsy. *)
Definition truthyValue (v : value) : bool :=
  match v with
  | VUndefined | VNull => false
  | VBool b => b
  | VNum JSNumber.NaN => false
  | VNum (JSNumber.Fin q) => negb (Qeq_bool q 0)
  | VStr s => truthy s
  | VArr _ | VObj _ => true
  end.

(** [a || b]. *)
Definition orElse (a b : value) : value := if truthyValue a then a else b.

(** [v?.k]: [undefined] on [null] and [undefined], the property otherwise. *)
Definition optionalProp (v : value) (k : string) : value :=
  match getProp v k with
  | Some x => x
  | None => VUndefined
  end.

(** The value handed to a counter card: [analytics?.k || 0]. *)
Definition counter (analytics : value) (k : string) : value :=
  orElse (optionalProp analytics k) (VNum (JSNumber.ofZ 0)).

End DashboardUI.

(** A dashboard as it is mounted, in front of a backend. *)
Definition dashboardWorld (server : nat -> Request -> Response) : World Dashboard.State :=
  {| view := Dashboard.initial; requests := []; toasts := []; ticks := 0;
     heap := ∅; backend := server; clock := fun _ => 0%Z |}.

(** * Properties *)

(** ** Strings *)

Lemma startsWith_spec (s p : string) :
  startsWith s p = true <-> exists post, s = (p ++ post)%string.
Proof.
  revert s. induction p as [|a p IH]; intros s; simpl.
  - split; [intros _; now exists s | reflexivity].
  - destruct s as [|b s]; simpl.
    + split; [discriminate | intros [post H]; discriminate].
    + rewrite andb_true_iff, IH, Ascii.eqb_eq. split.
      * intros [-> [post ->]]. now exists post.
      * intros [post H]. injection H as -> ->. split; [reflexivity | now exists post].
Qed.

Lemma includes_spec (s sub : string) :
  includes s sub = true <-> exists pre post, s = (pre ++ sub ++ post)%string.
Proof.
  induction s as [|c s IH].
  - simpl. rewrite orb_false_r, startsWith_spec. split.
    + intros [post H]. now exists "", post.
    + intros [pre [post H]]. destruct pre; [now exists post | discriminate].
  - cbn [includes]. rewrite orb_true_iff, IH, startsWith_spec. split.
    + intros [[post H] | [pre [post H]]].
      * now exists "", post.
      * exists (String c pre), post. simpl. now rewrite H.
    + intros [pre [post H]]. destruct pre as [|c' pre]; simpl in H.
      * left. now exists post.
      * right. injection H as -> ->. now exists pre, post.
Qed.

Lemma trimEnd_empty (s : string) : trimEnd s = "" <-> allWhiteSpace s = true.
Proof.
  induction s as [|c s IH]; simpl; [tauto|].
  destruct (trimEnd s) eqn:E, (isWhiteSpace c); simpl.
  - rewrite <- IH. tauto.
  - split; discriminate.
  - split; [discriminate | intros H; apply IH in H; discriminate].
  - split; discriminate.
Qed.

Lemma trimStart_allWhiteSpace (s : string) :
  allWhiteSpace (trimStart s) = allWhiteSpace s.
Proof.
  induction s as [|c s IH]; simpl; [reflexivity|].
  destruct (isWhiteSpace c) eqn:E; simpl; [assumption | now rewrite E].
Qed.

(** A string trims to the empty string exactly when it is empty or made of
    white space only. *)
Lemma trim_empty (s : string) : trim s = "" <-> allWhiteSpace s = true.
Proof. unfold trim. now rewrite trimEnd_empty, trimStart_allWhiteSpace. Qed.

Lemma truthy_trim (s : string) : truthy (trim s) = negb (allWhiteSpace s).
Proof.
  destruct (allWhiteSpace s) eqn:E.
  - apply trim_empty in E. now rewrite E.
  - destruct (trim s) eqn:T; [|reflexivity].
    apply trim_empty in T. congruence.
Qed.

(** ** The library's filter *)

(** C1: a document is in the filtered list iff it is a document of the list,
    its file name or its subject contains the search text when case is
    ignored, and the filter value is ["all"] or is exactly its subject. *)
Theorem filteredDocuments_spec (docs : list Document) (s f : string) (d : Document) :
  In d (LibraryPage.filteredDocuments docs s f) <->
  In d docs /\
  (containsIgnoringCase (filename d) s \/ containsIgnoringCase (subject d) s) /\
  (f = "all" \/ subject d = f).
Proof.
  unfold LibraryPage.filteredDocuments, LibraryPage.matchesDocument, containsIgnoringCase.
  rewrite filter_In, andb_true_iff, !orb_true_iff, !includes_spec, !String.eqb_eq.
  tauto.
Qed.

(** The search ignores case, the subject filter does not. *)
Example matchesDocument_sample :
  map (LibraryPage.matchesDocument "LEARNING" "all") LibraryPage.sampleDocs
    = [true; true; false] /\
  map (LibraryPage.matchesDocument "" "Deep Learning") LibraryPage.sampleDocs
    = [false; true; false] /\
  map (LibraryPage.matchesDocument "" "deep learning") LibraryPage.sampleDocs
    = [false; false; false].
Proof. vm_compute. repeat split. Qed.

(** ** [Array.prototype.sort] *)

Section SortFacts.
Context {A : Type} (comparefn : A -> A -> number).

Lemma insert_back_Permutation (x : A) (racc : list A) :
  Permutation (JSArray.insert_back comparefn x racc) (x :: racc).
Proof.
  induction racc as [|y r IH]; simpl; [reflexivity|].
  destruct (JSArray.movesBehind comparefn y x); [|reflexivity].
  rewrite IH. apply perm_swap.
Qed.

Lemma fold_insert_back_Permutation (l acc : list A) :
  Permutation (fold_left (fun racc x => JSArray.insert_back comparefn x racc) l acc)
              (l ++ acc).
Proof.
  revert acc. induction l as [|x l IH]; intros acc; simpl; [reflexivity|].
  rewrite IH, insert_back_Permutation. symmetry. apply Permutation_middle.
Qed.

(** The sort neither invents, nor drops, nor doubles an element, whatever
    the comparator answers. *)
Lemma sort_Permutation (l : list A) : Permutation (JSArray.sort comparefn l) l.
Proof.
  unfold JSArray.sort. rewrite <- Permutation_rev, fold_insert_back_Permutation.
  now rewrite app_nil_r.
Qed.

(** Sortedness for a relation [R] the comparator decides on the elements
    satisfying [P]. *)
Context (R : A -> A -> Prop) (P : A -> Prop).
Hypothesis behind :
  forall x y, P x -> P y -> JSArray.movesBehind comparefn y x = true -> R x y.
Hypothesis stays :
  forall x y, P x -> P y -> JSArray.movesBehind comparefn y x = false -> R y x.
Hypothesis trans :
  forall x y z, P x -> P y -> P z -> R x y -> R y z -> R x z.

Lemma insert_back_sorted (x : A) (racc : list A) :
  P x -> Forall P racc ->
  StronglySorted (flip R) racc ->
  StronglySorted (flip R) (JSArray.insert_back comparefn x racc).
Proof.
  intros Px. induction racc as [|y r IH]; intros HP Hs; simpl.
  - repeat constructor.
  - apply Forall_cons_1 in HP as [Py Pr].
    apply StronglySorted_inv in Hs as [Hr Hy].
    destruct (JSArray.movesBehind comparefn y x) eqn:E.
    + constructor; [now apply IH|].
      rewrite insert_back_Permutation. constructor; [|assumption].
      now apply behind.
    + constructor; [now constructor|].
      constructor; [now apply (stays x y)|].
      rewrite Forall_forall in *. intros z Hz. unfold flip.
      apply (trans z y x); [auto | auto | auto | apply Hy, Hz | now apply (stays x y)].
Qed.

Lemma fold_insert_back_sorted (l acc : list A) :
  Forall P l -> Forall P acc ->
  StronglySorted (flip R) acc ->
  StronglySorted (flip R)
    (fold_left (fun racc x => JSArray.insert_back comparefn x racc) l acc).
Proof.
  revert acc. induction l as [|x l IH]; intros acc Hl Hacc Hs; simpl; [assumption|].
  apply Forall_cons_1 in Hl as [Px Hl].
  apply IH; [assumption | | now apply insert_back_sorted].
  rewrite insert_back_Permutation. now constructor.
Qed.

Lemma StronglySorted_rev_flip (l : list A) :
  StronglySorted (flip R) l -> StronglySorted R (rev l).
Proof.
  induction 1 as [|x l Hs IH Hx]; simpl; [constructor|].
  apply StronglySorted_app. split; [|split; [assumption | repeat constructor]].
  intros x1 x2 H1 H2. apply list_elem_of_singleton in H2 as ->.
  rewrite Forall_forall in Hx. apply Hx, list_elem_of_In, in_rev, list_elem_of_In, H1.
Qed.

Lemma sort_StronglySorted (l : list A) :
  Forall P l -> StronglySorted R (JSArray.sort comparefn l).
Proof.
  intros Hl. apply StronglySorted_rev_flip, fold_insert_back_sorted; auto; constructor.
Qed.

End SortFacts.

(** ** The library's sort *)

Lemma codeUnitCompare_antisym (a b : string) :
  Z.sgn (codeUnitCompare b a) = (- Z.sgn (codeUnitCompare a b))%Z.
Proof.
  revert b. induction a as [|x a IH]; intros [|y b]; simpl; try reflexivity.
  rewrite (N.compare_antisym (N_of_ascii x) (N_of_ascii y)).
  destruct (N_of_ascii x ?= N_of_ascii y)%N; simpl; auto.
Qed.

Lemma codeUnitCompare_trans (a b c : string) :
  (codeUnitCompare a b <= 0)%Z -> (codeUnitCompare b c <= 0)%Z ->
  (codeUnitCompare a c <= 0)%Z.
Proof.
  revert b c. induction a as [|x a IH]; intros [|y b] [|z c]; simpl; try lia.
  destruct (N.compare_spec (N_of_ascii x) (N_of_ascii y)) as [Exy|Lxy|Gxy];
    destruct (N.compare_spec (N_of_ascii y) (N_of_ascii z)) as [Eyz|Lyz|Gyz];
    try lia; intros H1 H2.
  - rewrite Exy, Eyz, N.compare_refl. eauto.
  - rewrite Exy. now apply N.compare_lt_iff in Lyz as ->.
  - rewrite <- Eyz. now apply N.compare_lt_iff in Lxy as ->.
  - assert (N_of_ascii x < N_of_ascii z)%N as L by lia.
    now apply N.compare_lt_iff in L as ->.
Qed.

Lemma codeUnitCompare_consistent : ConsistentComparator codeUnitCompare.
Proof. split; [apply codeUnitCompare_antisym | apply codeUnitCompare_trans]. Qed.

Lemma movesBehind_sub_true (tx ty : Q) :
  negb (Qle_bool (tx - ty) 0) = true -> (ty <= tx)%Q.
Proof.
  rewrite negb_true_iff. intros H.
  destruct (Qlt_le_dec tx ty) as [L|L]; [|assumption].
  assert (Qle_bool (tx - ty) 0 = true) by (apply Qle_bool_iff; lra). congruence.
Qed.

Lemma movesBehind_sub_false (tx ty : Q) :
  negb (Qle_bool (tx - ty) 0) = false -> (tx <= ty)%Q.
Proof. rewrite negb_false_iff, Qle_bool_iff. lra. Qed.

(** A comparator [(a, b) => key(b) - key(a)] sorts in descending order of
    the key when no key is [NaN]. *)
Lemma sort_descending (key : Document -> number)
  (cmp : Document -> Document -> number) (l : list Document) :
  (forall a b, cmp a b = JSNumber.sub (key b) (key a)) ->
  Forall (fun d => JSNumber.isFinite (key d) = true) l ->
  descendingBy key (JSArray.sort cmp l).
Proof.
  intros Hcmp Hl.
  apply (sort_StronglySorted cmp _ (fun d => JSNumber.isFinite (key d) = true));
    [| | |assumption].
  - intros x y Px Py. unfold JSArray.movesBehind, JSArray.SortCompare.
    rewrite Hcmp. destruct (key x), (key y); try discriminate. simpl.
    apply movesBehind_sub_true.
  - intros x y Px Py. unfold JSArray.movesBehind, JSArray.SortCompare.
    rewrite Hcmp. destruct (key x), (key y); try discriminate. simpl.
    apply movesBehind_sub_false.
  - intros x y z Px Py Pz.
    destruct (key x), (key y), (key z); try discriminate. simpl. lra.
Qed.

(** A comparator [(a, b) => cmp(key(a), key(b))] sorts in ascending order of
    a consistent [cmp]. *)
Lemma sort_ascending (lc : string -> string -> Z) (key : Document -> string)
  (cmp : Document -> Document -> number) (l : list Document) :
  ConsistentComparator lc ->
  (forall a b, cmp a b = JSNumber.ofZ (lc (key a) (key b))) ->
  ascendingBy lc key (JSArray.sort cmp l).
Proof.
  intros [Hanti Htrans] Hcmp.
  apply (sort_StronglySorted cmp _ (fun _ => True)); [| | |now apply Forall_forall].
  - intros x y _ _. unfold JSArray.movesBehind, JSArray.SortCompare.
    rewrite Hcmp. simpl. rewrite negb_true_iff. intros H.
    assert (~ (lc (key y) (key x) <= 0)%Z) as N.
    { intros L. rewrite Zle_Qle in L. apply Qle_bool_iff in L.
      change (inject_Z 0) with 0%Q in L. congruence. }
    specialize (Hanti (key y) (key x)). lia.
  - intros x y _ _. unfold JSArray.movesBehind, JSArray.SortCompare.
    rewrite Hcmp. simpl. rewrite negb_false_iff, Qle_bool_iff. intros H.
    now rewrite Zle_Qle.
  - intros x y z _ _ _. apply Htrans.
Qed.

(** The strong reading of a descending order implies the weak one. *)
Lemma descendingBy_nonIncreasing (key : Document -> number) (l : list Document) :
  descendingBy key l -> nonIncreasing (map key l).
Proof.
  unfold descendingBy, nonIncreasing. induction 1 as [|d l Hs IH Hd].
  - intros i j a b _ H. destruct i; discriminate.
  - intros [|i] [|j] a b Hij Hi Hj; simpl in *; try lia.
    + injection Hi as Hi. rewrite Forall_forall in Hd.
      apply list_elem_of_lookup_2, list_elem_of_fmap in Hj as [d' [Hk Hin]].
      specialize (Hd d' Hin).
      rewrite Hi, <- Hk in Hd. exact Hd.
    + apply (IH i j); [lia | assumption | assumption].
Qed.

(** C2 (amended): the sorted list is in descending order of the parsed time
    stamp for the key ["upload_date"] when the upload dates of the filtered
    documents parse; in ascending order of the collation of the file names
    for ["filename"] when the runtime's collation is a consistent
    comparator; and in descending order of the score for ["complexity"]
    when the scores are numbers. *)
Theorem sortedDocuments_ordered (Date_getTime : string -> number)
  (localeCompare : string -> string -> Z) (docs : list Document) :
  (Forall (fun d => JSNumber.isFinite (Date_getTime (upload_date d)) = true) docs ->
   descendingBy (fun d => Date_getTime (upload_date d))
     (LibraryPage.sortedDocuments Date_getTime localeCompare docs "upload_date")) /\
  (ConsistentComparator localeCompare ->
   ascendingBy localeCompare filename
     (LibraryPage.sortedDocuments Date_getTime localeCompare docs "filename")) /\
  (Forall (fun d => JSNumber.isFinite (complexity_score d) = true) docs ->
   descendingBy complexity_score
     (LibraryPage.sortedDocuments Date_getTime localeCompare docs "complexity")).
Proof.
  unfold LibraryPage.sortedDocuments. repeat split.
  - intros Hdocs. now apply sort_descending.
  - intros Hlc. now apply sort_ascending.
  - intros Hdocs. now apply sort_descending.
Qed.

(** The theorem on the page's own sample documents, with the parser of
    their time stamps and the order of the code units as collation. *)
Lemma sortedDocuments_ordered_sample :
  descendingBy (fun d => JSDate.getTime (upload_date d))
    (LibraryPage.sortedDocuments JSDate.getTime codeUnitCompare
       LibraryPage.sampleDocs "upload_date") /\
  ascendingBy codeUnitCompare filename
    (LibraryPage.sortedDocuments JSDate.getTime codeUnitCompare
       LibraryPage.sampleDocs "filename") /\
  descendingBy complexity_score
    (LibraryPage.sortedDocuments JSDate.getTime codeUnitCompare
       LibraryPage.sampleDocs "complexity").
Proof.
  destruct (sortedDocuments_ordered JSDate.getTime codeUnitCompare LibraryPage.sampleDocs)
    as (Hdate & Hname & Hscore).
  split; [|split].
  - apply Hdate. repeat (constructor; [vm_compute; reflexivity|]). constructor.
  - apply Hname. apply codeUnitCompare_consistent.
  - apply Hscore. repeat (constructor; [vm_compute; reflexivity|]). constructor.
Defined.

(** The three orders of the sample documents, by their identifiers. *)
Example sampleDocs_sorted :
  map document_id (LibraryPage.sortedDocuments JSDate.getTime codeUnitCompare
                     LibraryPage.sampleDocs "upload_date")
    = ["doc_001"; "doc_002"; "doc_003"] /\
  map document_id (LibraryPage.sortedDocuments JSDate.getTime codeUnitCompare
                     LibraryPage.sampleDocs "filename")
    = ["doc_003"; "doc_002"; "doc_001"] /\
  map document_id (LibraryPage.sortedDocuments JSDate.getTime codeUnitCompare
                     LibraryPage.sampleDocs "complexity")
    = ["doc_002"; "doc_001"; "doc_003"] /\
  map document_id (LibraryPage.sortedDocuments JSDate.getTime codeUnitCompare
                     LibraryPage.sampleDocs "chunks")
    = ["doc_001"; "doc_002"; "doc_003"].
Proof. vm_compute. repeat split. Qed.

(** C2, as stated, fails: with an upload date that does not parse the
    comparator answers [NaN], which the sort reads as "equal", and the
    document of 2024-01-05 stays before the document of 2024-01-15.  The
    output does not even satisfy the weakest reading of "non-increasing",
    which [descendingBy] implies ([descendingBy_nonIncreasing]). *)
Lemma sortedDocuments_undated_not_ordered :
  map document_id
    (LibraryPage.sortedDocuments JSDate.getTime codeUnitCompare undatedDocs "upload_date")
    = ["doc_003"; "doc_004"; "doc_001"] /\
  ~ nonIncreasing
      (map (fun d => JSDate.getTime (upload_date d))
         (LibraryPage.sortedDocuments JSDate.getTime codeUnitCompare
            undatedDocs "upload_date")).
Proof.
  split; [vm_compute; reflexivity|].
  intros H.
  specialize (H 0%nat 2%nat (inject_Z 1704446100000) (inject_Z 1705314600000)).
  assert (inject_Z 1705314600000 <= inject_Z 1704446100000)%Q as L.
  { apply H; [lia | vm_compute; reflexivity | vm_compute; reflexivity]. }
  rewrite <- Zle_Qle in L. lia.
Qed.

(** ** The library's filter-then-sort on the heap *)

Lemma fresh_lookup_ne (h : gmap nat (list Document)) (l : nat) (a : list Document) :
  h !! l = Some a -> l <> fresh (dom h).
Proof.
  intros H E. apply (is_fresh (dom h)). rewrite <- E.
  apply elem_of_dom. now exists a.
Qed.

(** One run of the page's two statements: the result is a new array holding
    [sortFilter] of the documents, and every array that existed before holds
    what it held. *)
Lemma render_run (Date_getTime : string -> number) (localeCompare : string -> string -> Z)
  (w : World LibraryPage.State) (D : list Document) :
  heap w !! LibraryPage.documents (view w) = Some D ->
  exists r w',
    LibraryPage.render Date_getTime localeCompare w = (Return r, w') /\
    heap w' !! r =
      Some (LibraryPage.sortFilter Date_getTime localeCompare D
              (LibraryPage.searchTerm (view w)) (LibraryPage.filterBy (view w))
              (LibraryPage.sortBy (view w))) /\
    (forall l a, heap w !! l = Some a -> heap w' !! l = Some a) /\
    view w' = view w /\ requests w' = requests w /\ toasts w' = toasts w /\
    ticks w' = ticks w.
Proof.
  intros HD.
  unfold LibraryPage.render, Array_filter, Array_spread, Array_sort, Array_new,
    Array_read, Array_store, bind, getView, ret. simpl.
  rewrite HD. simpl. rewrite lookup_insert_eq. simpl. rewrite lookup_insert_eq. simpl.
  eexists _, _. split; [reflexivity|]. simpl.
  split; [now rewrite lookup_insert_eq|].
  split; [|auto].
  intros l a Hl.
  set (h1 := <[fresh (dom (heap w)) := _]> (heap w)).
  assert (h1 !! l = Some a) as Hl1.
  { unfold h1. rewrite lookup_insert_ne; [assumption|].
    intros E. now apply (fresh_lookup_ne _ _ _ Hl). }
  rewrite !lookup_insert_ne; [assumption | |];
    intros E; now apply (fresh_lookup_ne _ _ _ Hl1).
Qed.

(** C3: the filter-then-sort of the library is a function of the document
    list, the search text, the filter value and the sort key.  Run on a
    world whose state refers to the array [D], it returns a new array
    holding [sortFilter D s f k], which is a permutation of the documents of
    [D] that pass the filter; it leaves [D] and every other array as they
    were, issues no request, shows no toast and changes no state; and run a
    second time, on the world the first run left, it returns the same list
    again. *)
Theorem render_pure (Date_getTime : string -> number)
  (localeCompare : string -> string -> Z)
  (w : World LibraryPage.State) (D : list Document) :
  heap w !! LibraryPage.documents (view w) = Some D ->
  let s := LibraryPage.searchTerm (view w) in
  let f := LibraryPage.filterBy (view w) in
  let k := LibraryPage.sortBy (view w) in
  let out := LibraryPage.sortFilter Date_getTime localeCompare D s f k in
  Permutation out (List.filter (LibraryPage.matchesDocument s f) D) /\
  exists r w',
    LibraryPage.render Date_getTime localeCompare w = (Return r, w') /\
    heap w' !! r = Some out /\
    heap w' !! LibraryPage.documents (view w) = Some D /\
    (forall l a, heap w !! l = Some a -> heap w' !! l = Some a) /\
    view w' = view w /\ requests w' = requests w /\ toasts w' = toasts w /\
    exists r2 w'',
      LibraryPage.render Date_getTime localeCompare w' = (Return r2, w'') /\
      heap w'' !! r2 = Some out /\
      heap w'' !! LibraryPage.documents (view w) = Some D /\
      requests w'' = requests w.
Proof.
  intros HD s f k out. split.
  - apply sort_Permutation.
  - destruct (render_run Date_getTime localeCompare w D HD)
      as (r & w' & Hrun & Hr & Hkeep & Hv & Hq & Ht & _).
    exists r, w'. repeat (split; [first [assumption | now apply Hkeep]|]).
    assert (heap w' !! LibraryPage.documents (view w') = Some D) as HD'.
    { rewrite Hv. now apply Hkeep. }
    destruct (render_run Date_getTime localeCompare w' D HD')
      as (r2 & w'' & Hrun2 & Hr2 & Hkeep2 & Hv2 & Hq2 & _).
    exists r2, w''. rewrite Hv in Hr2, HD'.
    repeat (split; [first [assumption | now apply Hkeep2 | congruence]|]).
    congruence.
Qed.

(** The theorem on the page's sample documents, searched for "Learning". *)
Lemma render_pure_sample :
  heap libraryWorld !! 0%nat = Some LibraryPage.sampleDocs /\
  Permutation
    (LibraryPage.sortFilter JSDate.getTime codeUnitCompare LibraryPage.sampleDocs
       "Learning" "all" "complexity")
    (List.filter (LibraryPage.matchesDocument "Learning" "all") LibraryPage.sampleDocs).
Proof.
  split; [reflexivity|].
  apply (render_pure JSDate.getTime codeUnitCompare libraryWorld LibraryPage.sampleDocs).
  reflexivity.
Defined.

Example render_sample :
  map document_id
    (LibraryPage.sortFilter JSDate.getTime codeUnitCompare LibraryPage.sampleDocs
       "Learning" "all" "complexity") = ["doc_002"; "doc_001"] /\
  map document_id
    (LibraryPage.sortFilter JSDate.getTime codeUnitCompare LibraryPage.sampleDocs
       "" "Data Science" "upload_date") = ["doc_003"].
Proof. vm_compute. split; reflexivity. Qed.

(** ** The handlers *)

(** C4: when no file is chosen or the subject trims to the empty string,
    the upload handler shows the error notice asking for a file and a
    subject, issues no request and leaves the page's state as it is. *)
Theorem handleUpload_rejects_missing_input (w : World UploadPage.State) :
  UploadPage.file (view w) = None \/ trim (UploadPage.subject (view w)) = "" ->
  exists w',
    UploadPage.handleUpload w = (Return tt, w') /\
    requests w' = requests w /\
    toasts w' = toasts w ++ [{| level := ToastError;
                               text := "Please select a file and enter a subject." |}] /\
    view w' = view w.
Proof.
  intros H. unfold UploadPage.handleUpload. run_handler.
  destruct H as [H|H]; rewrite H.
  - eexists. repeat split.
  - destruct (UploadPage.file (view w)); eexists; repeat split.
Qed.

Lemma handleUpload_rejects_missing_file :
  (UploadPage.file (view noFileWorld) = None \/
   trim (UploadPage.subject (view noFileWorld)) = "") /\
  exists w',
    UploadPage.handleUpload noFileWorld = (Return tt, w') /\
    requests w' = requests noFileWorld /\
    toasts w' = toasts noFileWorld ++
                  [{| level := ToastError;
                      text := "Please select a file and enter a subject." |}] /\
    view w' = view noFileWorld.
Proof.
  split; [left; reflexivity|].
  apply (handleUpload_rejects_missing_input noFileWorld). left. reflexivity.
Defined.

(** The gateway itself checks nothing: whatever file and subject it is
    given, [uploadPDF] issues its request.  The check is the handler's. *)
Remark uploadPDF_sends {S : Type} (w : World S) (f : File) (subject userId : string) :
  length (requests (exec (apiService.uploadPDF f subject userId) w))
    = Datatypes.S (length (requests w)).
Proof.
  unfold apiService.uploadPDF. run_handler.
  destruct (backend w _ _); simpl; rewrite length_app; simpl; lia.
Qed.

(** C5 (amended): a submission of the question form whose text is empty or
    made of white space only is ignored: nothing is sent, no notice is
    shown, and the page's state stays as it is. *)
Theorem handleSubmit_ignores_blank (w : World AskPage.State) :
  allWhiteSpace (AskPage.input (view w)) = true ->
  AskPage.handleSubmit w = (Return tt, w).
Proof.
  intros H. unfold AskPage.handleSubmit. run_handler.
  now rewrite truthy_trim, H.
Qed.

Lemma handleSubmit_ignores_spaces :
  allWhiteSpace (AskPage.input (view (askWorld "   " (fun _ _ => Rejected) (fun _ => 0%Z))))
    = true /\
  AskPage.handleSubmit (askWorld "   " (fun _ _ => Rejected) (fun _ => 0%Z))
    = (Return tt, askWorld "   " (fun _ _ => Rejected) (fun _ => 0%Z)).
Proof.
  split; [reflexivity|].
  apply (handleSubmit_ignores_blank (askWorld "   " (fun _ _ => Rejected) (fun _ => 0%Z))).
  reflexivity.
Defined.

(** C5, as stated, fails: after a submission of three spaces no notice at
    all has been shown. *)
Lemma handleSubmit_blank_shows_no_notice :
  ~ exists t : Toast,
      In t (toasts (exec AskPage.handleSubmit
                      (askWorld "   " (fun _ _ => Rejected) (fun _ => 0%Z)))).
Proof. intros [t H]. vm_compute in H. exact H. Qed.

(** C6: [askQuestion] issues exactly one request, a POST to [/ask] whose
    JSON body carries the question, the document id and the user id it was
    given, the document id being ["all"] when none was given. *)
Theorem askQuestion_request {S : Type} (w : World S)
  (question : string) (documentId : option string) (userId : string) :
  exists req obj,
    requests (exec (apiService.askQuestion question documentId userId) w)
      = requests w ++ [req] /\
    method req = POST /\ url req = "/ask" /\ body req = JsonBody obj /\
    getProp obj "question" = Some (VStr question) /\
    getProp obj "document_id" =
      Some (VStr (match documentId with Some d => d | None => "all" end)) /\
    getProp obj "user_id" = Some (VStr userId).
Proof.
  unfold apiService.askQuestion. run_handler.
  eexists _, _. split.
  - destruct (backend w _ _); reflexivity.
  - repeat split.
Qed.

Lemma sourceOf_sourceValue (s : Source) : sourceOf (sourceValue s) = Some s.
Proof. now destruct s. Qed.

(** Reading back an encoded list of sources gives the list: same length,
    same order, same fields. *)
Lemma sourcesOf_sourceValue (l : list Source) :
  sourcesOf (VArr (map sourceValue l)) = Some l.
Proof.
  simpl. induction l as [|s l IH]; [reflexivity|].
  cbn [map sourcesOfItems]. now rewrite sourceOf_sourceValue, IH.
Qed.

(** A payload on which one property can be read is no [null] and no
    [undefined]: every property can be read on it. *)
Lemma getProp_total (data v : value) (k k' : string) :
  getProp data k = Some v -> exists v', getProp data k' = Some v'.
Proof. destruct data; simpl; intros H; try discriminate; eauto. Qed.

(** C8: when the request of a submitted question is answered with a payload
    whose [sources] field is [v], the transcript grows by the user's message
    and an assistant message whose [sources] is [v] itself; if [v] encodes a
    list of sources, reading the stored field back gives that list, with
    its length, its order and every field of every entry. *)
Theorem handleSubmit_keeps_sources (w : World AskPage.State) (data v : value) :
  allWhiteSpace (AskPage.input (view w)) = false ->
  AskPage.loading (view w) = false ->
  backend w (length (requests w))
    (askRequest (AskPage.input (view w)) (AskPage.selectedDocument (view w)) "cli_user")
    = Resolved data ->
  getProp data "sources" = Some v ->
  exists um am : AskPage.Message,
    AskPage.messages (view (exec AskPage.handleSubmit w))
      = AskPage.messages (view w) ++ [um; am] /\
    AskPage.type um = AskPage.user /\
    AskPage.type am = AskPage.assistant /\
    AskPage.sources am = v /\
    forall srcs : list Source,
      v = VArr (map sourceValue srcs) -> sourcesOf (AskPage.sources am) = Some srcs.
Proof.
  intros Hinput Hload Hback Hsrc.
  destruct (getProp_total data v "sources" "answer" Hsrc) as [a Ha].
  destruct (getProp_total data v "sources" "tutor_explanation" Hsrc) as [e He].
  destruct (getProp_total data v "sources" "interaction_id" Hsrc) as [i Hi].
  unfold AskPage.handleSubmit, apiService.askQuestion, AskPage.setMessages,
    AskPage.setInput, AskPage.setLoading, askRequest in *.
  run_handler. rewrite truthy_trim, Hinput, Hload. simpl.
  rewrite Hback. simpl. rewrite Ha, Hsrc, He, Hi. simpl.
  eexists _, _. split; [now rewrite <- app_assoc|].
  repeat split. intros srcs ->. apply sourcesOf_sourceValue.
Qed.

(** The spec's ask workflow against its stub: the stored message carries the
    one source with its score of 0.9. *)
Lemma handleSubmit_keeps_stub_sources :
  exists um am : AskPage.Message,
    AskPage.messages
      (view (exec AskPage.handleSubmit
               (askWorld "What is X?" (fun _ _ => Resolved stubAnswer)
                  (fun n => 1700000000000 + Z.of_nat n)%Z)))
      = [um; am] /\
    AskPage.sources am = VArr (map sourceValue stubSources) /\
    sourcesOf (AskPage.sources am) = Some stubSources.
Proof.
  destruct (handleSubmit_keeps_sources
              (askWorld "What is X?" (fun _ _ => Resolved stubAnswer)
                 (fun n => 1700000000000 + Z.of_nat n)%Z)
              stubAnswer (VArr (map sourceValue stubSources)))
    as (um & am & Hm & _ & _ & Hs & Hread); try reflexivity.
  exists um, am. split; [exact Hm|]. split; [exact Hs|]. now apply Hread.
Defined.

(** C9: submitting feedback, accepted or rejected, changes nothing of the
    page's state: the transcript, with the answers shown and their
    interaction ids, is what it was.  One request is issued and one notice
    reports the outcome, an error notice when the request was rejected. *)
Theorem handleFeedback_keeps_transcript (w : World AskPage.State)
  (interactionId : string) (rating : number) :
  let w' := exec (AskPage.handleFeedback interactionId rating) w in
  view w' = view w /\
  AskPage.messages (view w') = AskPage.messages (view w) /\
  exists req t,
    requests w' = requests w ++ [req] /\
    toasts w' = toasts w ++ [t] /\
    (level t = ToastError <-> backend w (length (requests w)) req = Rejected).
Proof.
  unfold AskPage.handleFeedback, apiService.submitFeedback. run_handler.
  destruct (backend w _ _) eqn:E; simpl.
  - repeat split. eexists _, _. split; [reflexivity|]. split; [reflexivity|].
    simpl. now rewrite E.
  - repeat split. eexists _, _. split; [reflexivity|]. split; [reflexivity|].
    simpl. rewrite E. split; discriminate.
Qed.

(** ** The search history of the research page *)

Lemma includes_In (l : list string) (s : string) :
  JSArray.includes l s = true <-> In s l.
Proof.
  unfold JSArray.includes. rewrite existsb_exists. split.
  - intros [x [Hx E]]. apply String.eqb_eq in E. now subst.
  - intros H. exists s. split; [assumption | apply String.eqb_refl].
Qed.

Lemma In_slice0 (n : nat) (l : list string) (s : string) :
  In s (JSArray.slice0 n l) -> In s l.
Proof.
  unfold JSArray.slice0. revert l.
  induction n as [|n IH]; intros [|x l]; simpl; try tauto.
  intros [H|H]; auto.
Qed.

(** What one search does to the history. *)
Lemma search_history (t : string) (w : World ResearchPage.State) :
  ResearchPage.searchHistory (view (exec (ResearchPage.search t) w)) =
  if searchSucceeds t w && negb (JSArray.includes (ResearchPage.searchHistory (view w)) t)
  then t :: JSArray.slice0 9 (ResearchPage.searchHistory (view w))
  else ResearchPage.searchHistory (view w).
Proof.
  unfold ResearchPage.search, ResearchPage.handleSubmit, ResearchPage.handleSearch,
    ResearchPage.setTopic, ResearchPage.setLoading, ResearchPage.setSuggestions,
    ResearchPage.setSearchHistory, apiService.getResearchSuggestions,
    searchSucceeds, researchRequest.
  run_handler.
  destruct (truthy (trim t)); simpl; [|reflexivity].
  destruct (backend w _ _) as [|data]; simpl; [reflexivity|].
  destruct (getProp data "suggestions"); simpl; [|reflexivity].
  destruct (JSArray.includes _ t); reflexivity.
Qed.

Lemma search_history_ok (t : string) (w : World ResearchPage.State) :
  (length (ResearchPage.searchHistory (view w)) <= 10)%nat ->
  NoDup (ResearchPage.searchHistory (view w)) ->
  (length (ResearchPage.searchHistory (view (exec (ResearchPage.search t) w))) <= 10)%nat /\
  NoDup (ResearchPage.searchHistory (view (exec (ResearchPage.search t) w))).
Proof.
  intros Hlen Hnd. rewrite search_history.
  destruct (searchSucceeds t w); cbn [andb]; [|now split].
  destruct (JSArray.includes _ t) eqn:E; cbn [negb]; [now split|].
  split.
  - unfold JSArray.slice0.
    pose proof (firstn_le_length 9 (ResearchPage.searchHistory (view w))).
    cbn [length]. lia.
  - constructor.
    + intros H. apply list_elem_of_In, In_slice0, includes_In in H. congruence.
    + eapply sublist_NoDup; [exact Hnd | apply sublist_take].
Qed.

(** C10: starting from a history of at most ten topics without repetition
    (the empty one of a mounted page, for one), the history has at most ten
    topics and no repetition after any sequence of searches; a search that
    succeeds for a topic not in the history puts it in front of the first
    nine entries; a search for a topic in the history leaves it as it is. *)
Theorem searchHistory_invariant (w : World ResearchPage.State) (ts : list string) :
  (length (ResearchPage.searchHistory (view w)) <= 10)%nat ->
  NoDup (ResearchPage.searchHistory (view w)) ->
  ((length (ResearchPage.searchHistory (view (runSearches ts w))) <= 10)%nat /\
   NoDup (ResearchPage.searchHistory (view (runSearches ts w)))) /\
  (forall t : string,
     searchSucceeds t w = true -> ~ In t (ResearchPage.searchHistory (view w)) ->
     ResearchPage.searchHistory (view (exec (ResearchPage.search t) w))
       = t :: firstn 9 (ResearchPage.searchHistory (view w))) /\
  (forall t : string,
     In t (ResearchPage.searchHistory (view w)) ->
     ResearchPage.searchHistory (view (exec (ResearchPage.search t) w))
       = ResearchPage.searchHistory (view w)).
Proof.
  intros Hlen Hnd. split; [|split].
  - revert w Hlen Hnd. induction ts as [|t ts IH]; intros w Hlen Hnd; simpl.
    + now split.
    + destruct (search_history_ok t w Hlen Hnd) as [Hlen' Hnd'].
      now apply IH.
  - intros t Hok Hnew. rewrite search_history, Hok.
    destruct (JSArray.includes _ t) eqn:E; [|reflexivity].
    apply includes_In in E. contradiction.
  - intros t Hin. rewrite search_history.
    apply includes_In in Hin. rewrite Hin. now rewrite andb_false_r.
Qed.

(** Twelve searches on a mounted page, against a backend that rejects
    every second request. *)
Lemma searchHistory_invariant_mounted :
  let ts := ["a"; "b"; "c"; "a"; "e"; "f"; "g"; "h"; "i"; "j"; "k"; "l";
             "m"; "n"; "o"; "p"; "q"; "r"; "s"; "t"; "u"; "v"; "w"; "x"] in
  (length (ResearchPage.searchHistory (view (runSearches ts (researchWorld flakyServer))))
     <= 10)%nat /\
  NoDup (ResearchPage.searchHistory (view (runSearches ts (researchWorld flakyServer)))).
Proof.
  intros ts.
  apply (searchHistory_invariant (researchWorld flakyServer) ts).
  - simpl. lia.
  - constructor.
Defined.

Example searchHistory_mounted :
  ResearchPage.searchHistory
    (view (runSearches
             ["a"; "b"; "c"; "a"; "e"; "f"; "g"; "h"; "i"; "j"; "k"; "l";
              "m"; "n"; "o"; "p"; "q"; "r"; "s"; "t"; "u"; "v"; "w"; "x"]
             (researchWorld flakyServer)))
  = ["w"; "u"; "s"; "q"; "o"; "m"; "k"; "i"; "g"; "e"].
Proof. vm_compute. reflexivity. Qed.

(** ** Failed calls and the loading flag *)

(** A failed call leaves the flag down, and the backend as it was. *)
Lemma handler_failed (wf : Workflow) (w : World (ViewState wf)) (a : Args wf) :
  allRejected w ->
  (startsLoading wf = false -> loadingFlag wf (view w) = false) ->
  loadingFlag wf (view (exec (handler wf a) w)) = false /\
  allRejected (exec (handler wf a) w).
Proof.
  unfold allRejected. intros Hrej Hidle.
  destruct wf; simpl in Hidle; try specialize (Hidle eq_refl);
    unfold_pages; run_handler; rewrite ?Hrej; simpl;
    repeat (break_match; simpl in * ); rewrite ?Hrej; simpl; auto.
Qed.

(** An entry of the user touches neither the flag nor the backend. *)
Lemma edit_keeps (wf : Workflow) (w : World (ViewState wf)) (e : Edit wf) :
  loadingFlag wf (view (exec (edit wf e) w)) = loadingFlag wf (view w) /\
  (allRejected w -> allRejected (exec (edit wf e) w)).
Proof.
  unfold allRejected.
  destruct wf; unfold_pages; run_handler;
    repeat (break_match; simpl in * ); auto.
Qed.

Lemma truthy_of_trim (s : string) : truthy (trim s) = true -> truthy s = true.
Proof. rewrite truthy_trim. now destruct s. Qed.

(** With the flag down, an entry the handler accepts enables every
    control. *)
Lemma edit_ready (wf : Workflow) (w : World (ViewState wf)) (e : Edit wf) :
  loadingFlag wf (view w) = false ->
  ready wf e = true ->
  Forall (fun disabled => disabled = false) (controls wf (view (exec (edit wf e) w))).
Proof.
  destruct wf; unfold_pages; run_handler; intros Hflag Hready;
    repeat (break_match; simpl in * ); try discriminate;
    rewrite ?Hflag, ?Hready; repeat constructor; simpl.
  now rewrite (truthy_of_trim _ Hready).
Qed.

(** C7 (amended): for every view and every gateway operation it invokes,
    when the view is idle before the first call (or is one of the two views
    mounted with the flag set), the loading flag is down after a failed
    call and after a second failed call that follows an entry of the user;
    and after the failed call an entry the handler accepts enables every
    control of the view.  The flag is then what it was before the first
    call in the views that start idle. *)
Theorem failed_calls_release_controls (wf : Workflow) (w : World (ViewState wf))
  (a1 a2 : Args wf) (e : Edit wf) :
  allRejected w ->
  (startsLoading wf = false -> loadingFlag wf (view w) = false) ->
  let w1 := exec (handler wf a1) w in
  let w2 := exec (handler wf a2) (exec (edit wf e) w1) in
  loadingFlag wf (view w1) = false /\
  loadingFlag wf (view w2) = false /\
  (startsLoading wf = false ->
   loadingFlag wf (view w1) = loadingFlag wf (view w) /\
   loadingFlag wf (view w2) = loadingFlag wf (view w)) /\
  (ready wf e = true ->
   Forall (fun disabled => disabled = false) (controls wf (view (exec (edit wf e) w1)))).
Proof.
  intros Hrej Hidle w1 w2.
  destruct (handler_failed wf w a1 Hrej Hidle) as [H1 Hrej1]. fold w1 in H1, Hrej1.
  destruct (edit_keeps wf w1 e) as [He Hrej1'].
  assert (loadingFlag wf (view w2) = false) as H2.
  { apply handler_failed; [now apply Hrej1'|]. intros _. now rewrite He. }
  repeat split; try assumption.
  - now rewrite H1, Hidle.
  - now rewrite H2, Hidle.
  - now apply edit_ready.
Qed.

(** The theorem on the ask page: two questions, both rejected. *)
Lemma failed_calls_release_ask_controls :
  let w := askWorld "What is X?" (fun _ _ => Rejected) (fun _ => 0%Z) in
  let w1 := exec AskPage.handleSubmit w in
  let w2 := exec AskPage.handleSubmit (exec (AskPage.setInput "And Y?") w1) in
  AskPage.loading (view w1) = false /\ AskPage.loading (view w2) = false.
Proof.
  intros w w1 w2.
  destruct (failed_calls_release_controls AskQuestion w tt tt "And Y?")
    as (H1 & H2 & _); [intros n req; reflexivity | reflexivity |].
  split; [exact H1 | exact H2].
Defined.

(** C7, as stated, fails twice.  On the ask page the handler clears the
    input, so the send button, enabled before the failed call, is disabled
    after it.  On the analytics page the flag is set before the fetch run on
    mount and down after it has failed. *)
Lemma failed_call_changes_controls :
  (let w := askWorld "What is X?" (fun _ _ => Rejected) (fun _ => 0%Z) in
   allRejected w /\
   controls AskQuestion (view w) = [false; false] /\
   controls AskQuestion (view (exec (handler AskQuestion tt) w)) = [false; true] /\
   controls AskQuestion (view (exec (handler AskQuestion tt) w))
     <> controls AskQuestion (view w)) /\
  (let w := analyticsWorld (fun _ _ => Rejected) in
   allRejected w /\
   loadingFlag AnalyticsFetch (view w) = true /\
   loadingFlag AnalyticsFetch (view (exec (handler AnalyticsFetch tt) w)) = false /\
   loadingFlag AnalyticsFetch (view (exec (handler AnalyticsFetch tt) w))
     <> loadingFlag AnalyticsFetch (view w)).
Proof.
  split; (split; [intros n req; reflexivity|]); vm_compute; repeat split; discriminate.
Qed.

(** * Further properties of the pages *)

(** ** The library: sort *)

Section SortMore.
Context {A : Type} (comparefn : A -> A -> number).

(** An element the walk does not move past anything stays where it was
    put: at the end. *)
Lemma fold_insert_back_unmoved (l acc : list A) :
  (forall x y, JSArray.movesBehind comparefn y x = false) ->
  fold_left (fun racc x => JSArray.insert_back comparefn x racc) l acc = rev l ++ acc.
Proof.
  intros Hcmp. revert acc. induction l as [|x l IH]; intros acc; simpl; [reflexivity|].
  rewrite IH, <- app_assoc. f_equal.
  destruct acc as [|y r]; simpl; [reflexivity|]. now rewrite Hcmp.
Qed.

Lemma sort_unmoved (l : list A) :
  (forall x y, JSArray.movesBehind comparefn y x = false) ->
  JSArray.sort comparefn l = l.
Proof.
  intros Hcmp. unfold JSArray.sort.
  rewrite fold_insert_back_unmoved, app_nil_r by assumption. apply rev_involutive.
Qed.

(** The elements of a class [p] inside which the comparator never asks for
    a move come out in the order they went in. *)
Context (p : A -> bool).
Hypothesis level :
  forall x y, p x = true -> p y = true -> JSArray.movesBehind comparefn y x = false.




End SortMore.


(** X1: a sort key that is none of the three the menu offers takes the
    [default] branch of the comparator, which answers 0 for every pair: the
    list comes out in the order it went in. *)
Theorem sortedDocuments_unknown_key (Date_getTime : string -> number)
  (localeCompare : string -> string -> Z) (docs : list Document) (key : string) :
  key <> "upload_date" -> key <> "filename" -> key <> "complexity" ->
  LibraryPage.sortedDocuments Date_getTime localeCompare docs key = docs.
Proof.
  intros H1 H2 H3. unfold LibraryPage.sortedDocuments. apply sort_unmoved.
  intros x y. unfold JSArray.movesBehind, JSArray.SortCompare, LibraryPage.compareDocuments.
  apply String.eqb_neq in H1, H2, H3. now rewrite H1, H2, H3.
Qed.

Lemma sortedDocuments_unknown_key_sample :
  LibraryPage.sortedDocuments JSDate.getTime codeUnitCompare LibraryPage.sampleDocs "chunks"
  = LibraryPage.sampleDocs.
Proof.
  apply (sortedDocuments_unknown_key JSDate.getTime codeUnitCompare
           LibraryPage.sampleDocs "chunks"); discriminate.
Defined.




(** ** The library: filter *)






Lemma includes_empty (text : string) : includes text "" = true.
Proof. destruct text; reflexivity. Qed.

Lemma filter_all_true {A : Type} (p : A -> bool) (l : list A) :
  (forall x, p x = true) -> List.filter p l = l.
Proof.
  intros H. induction l as [|x l IH]; simpl; [reflexivity|]. now rewrite H, IH.
Qed.

(** X4: with an empty search text the search matches every document: the
    filter value ["all"] lists the whole library, in its order, and every
    other value lists exactly the documents whose subject is that value. *)
Theorem filteredDocuments_empty_search (docs : list Document) (f : string) :
  LibraryPage.filteredDocuments docs "" f
  = if String.eqb f "all" then docs
    else List.filter (fun d => String.eqb (subject d) f) docs.
Proof.
  unfold LibraryPage.filteredDocuments, LibraryPage.matchesDocument.
  destruct (String.eqb f "all") eqn:E.
  - apply filter_all_true. intros d. simpl. now rewrite includes_empty.
  - apply filter_ext. intros d. simpl. now rewrite includes_empty.
Qed.

(** ** The library: the subject menu *)

Lemma Set_add_In (s : list string) (x y : string) :
  In y (LibraryWidgets.Set_add s x) <-> In y s \/ y = x.
Proof.
  unfold LibraryWidgets.Set_add. destruct (JSArray.includes s x) eqn:E.
  - apply includes_In in E. split; [tauto | intros [H | ->]; assumption].
  - rewrite in_app_iff. simpl. intuition.
Qed.

Lemma Set_add_NoDup (s : list string) (x : string) :
  NoDup s -> NoDup (LibraryWidgets.Set_add s x).
Proof.
  intros H. unfold LibraryWidgets.Set_add. destruct (JSArray.includes s x) eqn:E.
  - assumption.
  - apply NoDup_app. split; [assumption|]. split; [|apply NoDup_singleton].
    intros y Hy Hx. apply list_elem_of_singleton in Hx as ->.
    apply list_elem_of_In, includes_In in Hy. congruence.
Qed.

Lemma fold_Set_add (l s : list string) :
  (NoDup s -> NoDup (fold_left LibraryWidgets.Set_add l s)) /\
  (forall y, In y (fold_left LibraryWidgets.Set_add l s) <-> In y s \/ In y l).
Proof.
  revert s. induction l as [|x l IH]; intros s; simpl.
  - split; [auto | intros y; tauto].
  - destruct (IH (LibraryWidgets.Set_add s x)) as [IH1 IH2]. split.
    + intros H. now apply IH1, Set_add_NoDup.
    + intros y. rewrite IH2, Set_add_In. intuition.
Qed.

(** X5: the subject menu lists every subject of the library once: no
    subject is repeated, and a subject is listed iff some document has it.
    A document added at the end adds its subject at the end of the menu
    when the subject is new, and leaves the menu alone otherwise. *)
Theorem subjects_spec (docs : list Document) :
  NoDup (LibraryWidgets.subjects docs) /\
  (forall s : string,
     In s (LibraryWidgets.subjects docs) <-> exists d, In d docs /\ subject d = s) /\
  (forall d : Document,
     LibraryWidgets.subjects (docs ++ [d])
     = if JSArray.includes (LibraryWidgets.subjects docs) (subject d)
       then LibraryWidgets.subjects docs
       else LibraryWidgets.subjects docs ++ [subject d]).
Proof.
  unfold LibraryWidgets.subjects.
  destruct (fold_Set_add (map subject docs) []) as [Hnd Hin]. split; [|split].
  - apply Hnd, NoDup_nil_2.
  - intros s. rewrite Hin, in_map_iff. simpl. split.
    + intros [[]|[d [E H]]]. now exists d.
    + intros [d [H E]]. right. now exists d.
  - intros d. now rewrite map_app, fold_left_app.
Qed.

(** X6: no entry of the subject menu leads to an empty list: with an empty
    search text, choosing a listed subject shows at least one document.  *)
Theorem subjects_options_not_empty (docs : list Document) (s : string) :
  In s (LibraryWidgets.subjects docs) ->
  exists d, In d (LibraryPage.filteredDocuments docs "" s) /\ subject d = s.
Proof.
  unfold LibraryWidgets.subjects. intros H.
  apply (proj2 (fold_Set_add (map subject docs) [])) in H as [[]|H].
  apply in_map_iff in H as [d [E H]]. exists d. split; [|assumption].
  unfold LibraryPage.filteredDocuments, LibraryPage.matchesDocument.
  apply filter_In. split; [assumption|]. simpl.
  rewrite includes_empty, E, String.eqb_refl. simpl. apply orb_true_r.
Qed.

Lemma subjects_options_not_empty_sample :
  exists d, In d (LibraryPage.filteredDocuments LibraryPage.sampleDocs "" "Deep Learning") /\
            subject d = "Deep Learning".
Proof.
  apply (subjects_options_not_empty LibraryPage.sampleDocs "Deep Learning").
  vm_compute. tauto.
Defined.

Example subjects_sample :
  LibraryWidgets.subjects (LibraryPage.sampleDocs ++ undatedDocs)
  = ["Machine Learning"; "Deep Learning"; "Data Science"].
Proof. vm_compute. reflexivity. Qed.

(** ** The library: the complexity badge *)

(** X7: the badge follows the score: of two scores the larger never gets
    the lower badge.  A score that is no number fails both comparisons and
    gets the badge "Advanced". *)
Theorem getComplexityLevel_monotone (a b : Q) :
  (a <= b)%Q ->
  (LibraryWidgets.label (LibraryWidgets.getComplexityLevel (JSNumber.Fin b)) = "Basic" ->
   LibraryWidgets.label (LibraryWidgets.getComplexityLevel (JSNumber.Fin a)) = "Basic") /\
  (LibraryWidgets.label (LibraryWidgets.getComplexityLevel (JSNumber.Fin a)) = "Advanced" ->
   LibraryWidgets.label (LibraryWidgets.getComplexityLevel (JSNumber.Fin b)) = "Advanced") /\
  LibraryWidgets.label (LibraryWidgets.getComplexityLevel JSNumber.NaN) = "Advanced".
Proof.
  intros Hab. unfold LibraryWidgets.getComplexityLevel, LibraryWidgets.lessThan.
  destruct (Qle_bool (2 # 5) a) eqn:A1, (Qle_bool (7 # 10) a) eqn:A2,
    (Qle_bool (2 # 5) b) eqn:B1, (Qle_bool (7 # 10) b) eqn:B2; simpl;
    repeat split; try discriminate; try reflexivity; intros _; exfalso;
    repeat match goal with
           | H : Qle_bool _ _ = true |- _ => apply Qle_bool_iff in H
           | H : Qle_bool ?x ?y = false |- _ =>
               assert (~ (x <= y)%Q) by (rewrite <- Qle_bool_iff; congruence); clear H
           end; lra.
Qed.

Lemma getComplexityLevel_monotone_sample :
  LibraryWidgets.label (LibraryWidgets.getComplexityLevel (JSNumber.Fin (3 # 10))) = "Basic".
Proof.
  apply (getComplexityLevel_monotone (3 # 10) (7 # 20)).
  - unfold Qle. simpl. lia.
  - reflexivity.
Defined.

(** ** The ask page *)

Ltac unfold_ask :=
  unfold AskPage.handleSubmit, AskPage.handleFeedback, apiService.askQuestion,
    apiService.submitFeedback, AskPage.setMessages, AskPage.setInput,
    AskPage.setLoading, AskUI.setSelectedDocument, askRequest in *.

(** X8: when the request of an accepted question is rejected, the page
    keeps the user's message in the transcript, leaves the input cleared,
    lowers the loading flag and shows the error notice; the one request it
    issued carries the text as it was typed and the selected document. *)
Theorem handleSubmit_rejected (w : World AskPage.State) :
  allWhiteSpace (AskPage.input (view w)) = false ->
  AskPage.loading (view w) = false ->
  backend w (length (requests w))
    (askRequest (AskPage.input (view w)) (AskPage.selectedDocument (view w)) "cli_user")
    = Rejected ->
  exists um : AskPage.Message,
    AskPage.type um = AskPage.user /\
    AskPage.content um = VStr (AskPage.input (view w)) /\
    view (exec AskPage.handleSubmit w)
      = {| AskPage.messages := AskPage.messages (view w) ++ [um];
           AskPage.input := ""; AskPage.loading := false;
           AskPage.selectedDocument := AskPage.selectedDocument (view w) |} /\
    requests (exec AskPage.handleSubmit w)
      = requests w ++ [askRequest (AskPage.input (view w))
                         (AskPage.selectedDocument (view w)) "cli_user"] /\
    toasts (exec AskPage.handleSubmit w)
      = toasts w ++ [{| level := ToastError;
                        text := "Failed to get answer. Please try again." |}].
Proof.
  intros Hinput Hload Hback. unfold_ask. run_handler.
  rewrite truthy_trim, Hinput, Hload. simpl. rewrite Hback. simpl.
  eexists. repeat split; reflexivity.
Qed.

Lemma handleSubmit_rejected_sample :
  toasts (exec AskPage.handleSubmit
            (askWorld "What is X?" (fun _ _ => Rejected) (fun _ => 0%Z)))
  = [{| level := ToastError; text := "Failed to get answer. Please try again." |}].
Proof.
  destruct (handleSubmit_rejected
              (askWorld "What is X?" (fun _ _ => Rejected) (fun _ => 0%Z))
              eq_refl eq_refl eq_refl)
    as (um & _ & _ & _ & _ & Ht).
  exact Ht.
Defined.

(** X9: a response whose body is [null] (or missing) is handled as a
    failure although the request succeeded: reading [data.answer] throws,
    the [catch] shows the error notice, and no assistant message is added
    to the user's message. *)
Theorem handleSubmit_null_body (w : World AskPage.State) (data : value) :
  allWhiteSpace (AskPage.input (view w)) = false ->
  AskPage.loading (view w) = false ->
  backend w (length (requests w))
    (askRequest (AskPage.input (view w)) (AskPage.selectedDocument (view w)) "cli_user")
    = Resolved data ->
  data = VNull \/ data = VUndefined ->
  exists um : AskPage.Message,
    AskPage.type um = AskPage.user /\
    AskPage.messages (view (exec AskPage.handleSubmit w))
      = AskPage.messages (view w) ++ [um] /\
    AskPage.loading (view (exec AskPage.handleSubmit w)) = false /\
    toasts (exec AskPage.handleSubmit w)
      = toasts w ++ [{| level := ToastError;
                        text := "Failed to get answer. Please try again." |}].
Proof.
  intros Hinput Hload Hback Hdata. unfold_ask. run_handler.
  rewrite truthy_trim, Hinput, Hload. simpl. rewrite Hback. simpl.
  destruct Hdata as [-> | ->]; simpl; eexists; repeat split; reflexivity.
Qed.

Lemma handleSubmit_null_body_sample :
  toasts (exec AskPage.handleSubmit
            (askWorld "What is X?" (fun _ _ => Resolved VNull) (fun _ => 0%Z)))
  = [{| level := ToastError; text := "Failed to get answer. Please try again." |}].
Proof.
  destruct (handleSubmit_null_body
              (askWorld "What is X?" (fun _ _ => Resolved VNull) (fun _ => 0%Z)) VNull
              eq_refl eq_refl eq_refl (or_introl eq_refl))
    as (um & _ & _ & _ & Ht).
  exact Ht.
Defined.

(** X10: a submission while a question is in flight is ignored, whatever
    the input holds: nothing is sent, nothing is shown, nothing changes. *)
Theorem handleSubmit_ignored_while_loading (w : World AskPage.State) :
  AskPage.loading (view w) = true ->
  AskPage.handleSubmit w = (Return tt, w).
Proof.
  intros H. unfold AskPage.handleSubmit. run_handler. rewrite H.
  now rewrite orb_true_r.
Qed.

Lemma assoc_absent (k : string) (fields : list (string * value)) :
  ~ In k (map fst fields) -> assoc k fields = VUndefined.
Proof.
  induction fields as [|[k' v] rest IH]; simpl; [reflexivity|].
  intros H. destruct (String.eqb k k') eqn:E.
  - apply String.eqb_eq in E. subst. tauto.
  - apply IH. tauto.
Qed.

(** X11: a response whose body is an object always yields an assistant
    message and no notice: its content, sources, tutor explanation and
    interaction id are the fields of the object, each [undefined] when the
    object has no such field. *)
Theorem handleSubmit_object_body (w : World AskPage.State)
  (fields : list (string * value)) :
  allWhiteSpace (AskPage.input (view w)) = false ->
  AskPage.loading (view w) = false ->
  backend w (length (requests w))
    (askRequest (AskPage.input (view w)) (AskPage.selectedDocument (view w)) "cli_user")
    = Resolved (VObj fields) ->
  exists um am : AskPage.Message,
    AskPage.messages (view (exec AskPage.handleSubmit w))
      = AskPage.messages (view w) ++ [um; am] /\
    AskPage.type am = AskPage.assistant /\
    AskPage.content am = assoc "answer" fields /\
    AskPage.sources am = assoc "sources" fields /\
    AskPage.tutor_explanation am = assoc "tutor_explanation" fields /\
    AskPage.interaction_id am = assoc "interaction_id" fields /\
    (forall k, ~ In k (map fst fields) -> assoc k fields = VUndefined) /\
    toasts (exec AskPage.handleSubmit w) = toasts w /\
    AskPage.loading (view (exec AskPage.handleSubmit w)) = false.
Proof.
  intros Hinput Hload Hback. unfold_ask. run_handler.
  rewrite truthy_trim, Hinput, Hload. simpl. rewrite Hback. simpl.
  eexists _, _. split; [now rewrite <- app_assoc|].
  repeat split. intros k. apply assoc_absent.
Qed.

Lemma handleSubmit_object_body_sample :
  exists um am : AskPage.Message,
    AskPage.messages
      (view (exec AskPage.handleSubmit
               (askWorld "What is X?" (fun _ _ => Resolved (VObj [])) (fun _ => 0%Z))))
      = [um; am] /\
    AskPage.content am = VUndefined /\ AskPage.sources am = VUndefined.
Proof.
  destruct (handleSubmit_object_body
              (askWorld "What is X?" (fun _ _ => Resolved (VObj [])) (fun _ => 0%Z)) []
              eq_refl eq_refl eq_refl)
    as (um & am & Hm & _ & Hc & Hs & _).
  exists um, am. split; [exact Hm|]. split; [exact Hc | exact Hs].
Defined.

Lemma handleSubmit_ignored_while_loading_sample :
  AskPage.handleSubmit
    (exec (AskPage.setLoading true)
       (askWorld "What is X?" (fun _ _ => Rejected) (fun _ => 0%Z)))
  = (Return tt,
     exec (AskPage.setLoading true)
       (askWorld "What is X?" (fun _ _ => Rejected) (fun _ => 0%Z))).
Proof.
  apply (handleSubmit_ignored_while_loading
           (exec (AskPage.setLoading true)
              (askWorld "What is X?" (fun _ _ => Rejected) (fun _ => 0%Z)))).
  reflexivity.
Defined.

(** What a submission does to the request log, the selected document and
    the transcript, in every case. *)
Lemma handleSubmit_effect (w : World AskPage.State) :
  let w' := exec AskPage.handleSubmit w in
  AskPage.selectedDocument (view w') = AskPage.selectedDocument (view w) /\
  (requests w' = requests w \/
   (allWhiteSpace (AskPage.input (view w)) = false /\
    requests w' = requests w ++ [askRequest (AskPage.input (view w))
                                   (AskPage.selectedDocument (view w)) "cli_user"])) /\
  exists added : list AskPage.Message,
    AskPage.messages (view w') = AskPage.messages (view w) ++ added /\
    (added = [] \/
     (exists um, added = [um] /\ AskPage.type um = AskPage.user) \/
     (exists um am, added = [um; am] /\ AskPage.type um = AskPage.user /\
                    AskPage.type am = AskPage.assistant)).
Proof.
  unfold_ask. run_handler. rewrite truthy_trim.
  destruct (allWhiteSpace (AskPage.input (view w))) eqn:Hin; simpl.
  { repeat split; [now left|]. exists []. rewrite app_nil_r. auto. }
  destruct (AskPage.loading (view w)) eqn:Hl; simpl.
  { repeat split; [now left|]. exists []. rewrite app_nil_r. auto. }
  destruct (backend w _ _) as [|data]; simpl.
  { repeat split; [now right|]. eexists. split; [reflexivity|]. right. left. eauto. }
  destruct (getProp data "answer") eqn:Ha; simpl.
  - destruct (getProp_total data _ "answer" "sources" Ha) as [s Hs].
    destruct (getProp_total data _ "answer" "tutor_explanation" Ha) as [e He].
    destruct (getProp_total data _ "answer" "interaction_id" Ha) as [i Hi].
    rewrite Hs, He, Hi. simpl.
    repeat split; [now right|]. eexists. split; [now rewrite <- app_assoc|].
    right. right. eauto.
  - repeat split; [now right|]. eexists. split; [reflexivity|]. right. left. eauto.
Qed.

Lemma handleFeedback_effect (w : World AskPage.State) (i : string) (r : number) :
  let w' := exec (AskPage.handleFeedback i r) w in
  view w' = view w /\
  exists req, requests w' = requests w ++ [req] /\ url req = "/feedback".
Proof.
  unfold_ask. run_handler.
  destruct (backend w _ _); simpl; (split; [reflexivity|]); eexists; split; reflexivity.
Qed.

Lemma ask_step_effect (e : AskUI.Event) (w : World AskPage.State) :
  let w' := exec (AskUI.step e) w in
  (AskPage.selectedDocument (view w) = "all" ->
   AskPage.selectedDocument (view w') = "all") /\
  (AskPage.selectedDocument (view w) = "all" ->
   Forall AskUI.scopedToAll (requests w) -> Forall AskUI.scopedToAll (requests w')) /\
  exists added : list AskPage.Message,
    AskPage.messages (view w') = AskPage.messages (view w) ++ added /\
    (added = [] \/
     (exists um, added = [um] /\ AskPage.type um = AskPage.user) \/
     (exists um am, added = [um; am] /\ AskPage.type um = AskPage.user /\
                    AskPage.type am = AskPage.assistant)).
Proof.
  assert (forall l : list AskPage.Message, exists added : list AskPage.Message,
            l = l ++ added /\
            (added = [] \/
             (exists um, added = [um] /\ AskPage.type um = AskPage.user) \/
             (exists um am, added = [um; am] /\ AskPage.type um = AskPage.user /\
                            AskPage.type am = AskPage.assistant))) as Hnone.
  { intros l. exists []. rewrite app_nil_r. auto. }
  destruct e as [text|idx| |i|i|]; simpl.
  - unfold_ask. run_handler. auto.
  - destruct (nth_error AskUI.quickQuestions idx); unfold_ask; run_handler; auto.
  - destruct (handleSubmit_effect w) as (Hsel & Hreq & Hmsg).
    split; [congruence|]. split; [|exact Hmsg].
    intros Hall Hlog. destruct Hreq as [-> | [Hin ->]]; [assumption|].
    apply Forall_app. split; [assumption|]. constructor; [|constructor].
    intros _. exists (AskPage.input (view w)). now rewrite Hall.
  - destruct (handleFeedback_effect w i (JSNumber.ofZ 5)) as (Hv & req & Hreq & Hurl).
    rewrite Hv, Hreq. split; [auto|]. split; [|apply Hnone].
    intros _ Hlog. apply Forall_app. split; [assumption|]. constructor; [|constructor].
    intros Hask. congruence.
  - destruct (handleFeedback_effect w i (JSNumber.ofZ 2)) as (Hv & req & Hreq & Hurl).
    rewrite Hv, Hreq. split; [auto|]. split; [|apply Hnone].
    intros _ Hlog. apply Forall_app. split; [assumption|]. constructor; [|constructor].
    intros Hask. congruence.
  - unfold_ask. run_handler. auto.
Qed.

(** X12: the page never asks about anything but all documents.  Whatever
    the user does, in whatever order, the selected document stays ["all"]
    and every request to [/ask] carries a question that is not blank, the
    document id ["all"] and the user id ["cli_user"]. *)
Theorem ask_requests_scoped_to_all (events : list AskUI.Event) (w : World AskPage.State) :
  AskPage.selectedDocument (view w) = "all" ->
  Forall AskUI.scopedToAll (requests w) ->
  AskPage.selectedDocument (view (AskUI.run events w)) = "all" /\
  Forall AskUI.scopedToAll (requests (AskUI.run events w)).
Proof.
  revert w. induction events as [|e events IH]; intros w Hsel Hlog; simpl.
  - now split.
  - destruct (ask_step_effect e w) as (Hsel' & Hlog' & _). apply IH; auto.
Qed.

Lemma ask_requests_scoped_to_all_sample :
  Forall AskUI.scopedToAll
    (requests (AskUI.run
                 [AskUI.SubmitForm; AskUI.ClickQuickQuestion 1; AskUI.SubmitForm;
                  AskUI.ClickThumbsUp "i1"; AskUI.ChangeInput "  "; AskUI.SubmitForm]
                 (askWorld "What is X?" (fun _ _ => Resolved stubAnswer) (fun _ => 0%Z)))).
Proof.
  apply (ask_requests_scoped_to_all
           [AskUI.SubmitForm; AskUI.ClickQuickQuestion 1; AskUI.SubmitForm;
            AskUI.ClickThumbsUp "i1"; AskUI.ChangeInput "  "; AskUI.SubmitForm]
           (askWorld "What is X?" (fun _ _ => Resolved stubAnswer) (fun _ => 0%Z))).
  - reflexivity.
  - constructor.
Defined.

Lemma answersFollowQuestions_app (b : bool) (l r : list AskPage.Message)
  (um : AskPage.Message) :
  AskPage.type um = AskPage.user ->
  AskUI.answersFollowQuestions b (l ++ um :: r)
  = AskUI.answersFollowQuestions b l && AskUI.answersFollowQuestions true r.
Proof.
  intros Hu. revert b. induction l as [|m l IH]; intros b; simpl.
  - now rewrite Hu.
  - destruct (AskPage.type m); [apply IH|]. rewrite IH. now rewrite andb_assoc.
Qed.

(** X13: the transcript only grows, and in it every answer comes directly
    after the question it answers: whatever the user does, the earlier
    transcript is the beginning of the later one, and no assistant message
    stands first or directly after another assistant message. *)
Theorem ask_transcript_shape (events : list AskUI.Event) (w : World AskPage.State) :
  AskUI.answersFollowQuestions false (AskPage.messages (view w)) = true ->
  AskUI.answersFollowQuestions false (AskPage.messages (view (AskUI.run events w))) = true /\
  exists added : list AskPage.Message,
    AskPage.messages (view (AskUI.run events w)) = AskPage.messages (view w) ++ added.
Proof.
  revert w. induction events as [|e events IH]; intros w Hw; simpl.
  - split; [assumption|]. exists []. now rewrite app_nil_r.
  - destruct (ask_step_effect e w) as (_ & _ & added & Hadd & Hshape).
    assert (AskUI.answersFollowQuestions false
              (AskPage.messages (view (exec (AskUI.step e) w))) = true) as Hw'.
    { rewrite Hadd.
      destruct Hshape as [-> | [(um & -> & Hu) | (um & am & -> & Hu & Ha)]].
      - now rewrite app_nil_r.
      - rewrite answersFollowQuestions_app by assumption. now rewrite Hw.
      - rewrite answersFollowQuestions_app by assumption. simpl. now rewrite Hw, Ha. }
    destruct (IH _ Hw') as (Hfinal & rest & Hrest).
    split; [assumption|]. exists (added ++ rest). now rewrite Hrest, Hadd, app_assoc.
Qed.

Lemma ask_transcript_shape_sample :
  AskUI.answersFollowQuestions false
    (AskPage.messages
       (view (AskUI.run
                [AskUI.SubmitForm; AskUI.ClickQuickQuestion 1; AskUI.SubmitForm]
                (askWorld "What is X?" flakyAnswers (fun _ => 0%Z))))) = true.
Proof.
  apply (ask_transcript_shape
           [AskUI.SubmitForm; AskUI.ClickQuickQuestion 1; AskUI.SubmitForm]
           (askWorld "What is X?" flakyAnswers (fun _ => 0%Z))).
  reflexivity.
Defined.

(** ** The upload page *)

Ltac unfold_upload :=
  unfold UploadPage.handleUpload, UploadPage.handleFileChange, apiService.uploadPDF,
    UploadPage.setFile, UploadPage.setSubject, UploadPage.setUploading,
    UploadPage.setUploadResult, UploadPage.uploadDisabled, UploadUI.uploadRequest in *.

(** X14: when the upload is rejected the form keeps the file and the
    subject, so that the user can press the button again; the earlier
    result stays on display, the flag is lowered and the error notice is
    shown. *)
Theorem handleUpload_rejected (w : World UploadPage.State) (f : File) :
  UploadPage.file (view w) = Some f ->
  allWhiteSpace (UploadPage.subject (view w)) = false ->
  backend w (length (requests w))
    (UploadUI.uploadRequest f (UploadPage.subject (view w)) "cli_user") = Rejected ->
  view (exec UploadPage.handleUpload w)
    = {| UploadPage.file := Some f; UploadPage.subject := UploadPage.subject (view w);
         UploadPage.uploading := false;
         UploadPage.uploadResult := UploadPage.uploadResult (view w) |} /\
  requests (exec UploadPage.handleUpload w)
    = requests w ++ [UploadUI.uploadRequest f (UploadPage.subject (view w)) "cli_user"] /\
  toasts (exec UploadPage.handleUpload w)
    = toasts w ++
      [{| level := ToastError;
          text := "Upload failed. There was an error uploading your document. Please try again." |}].
Proof.
  intros Hf Hs Hback. unfold_upload. run_handler.
  rewrite Hf, truthy_trim, Hs. simpl. rewrite Hback. simpl.
  repeat split; now rewrite ?Hf.
Qed.

Lemma handleUpload_rejected_sample :
  UploadPage.file
    (view (exec UploadPage.handleUpload (uploadWorld notesPdf "Physics" (fun _ _ => Rejected))))
  = Some notesPdf.
Proof.
  destruct (handleUpload_rejected (uploadWorld notesPdf "Physics" (fun _ _ => Rejected))
              notesPdf eq_refl eq_refl eq_refl) as (Hv & _ & _).
  now rewrite Hv.
Defined.

(** X15: when the upload is answered the page stores the answer as the
    result, shows the success notice and empties the form; pressing the
    button again right away sends nothing: it only asks for a file and a
    subject. *)
Theorem handleUpload_resolved (w : World UploadPage.State) (f : File) (data : value) :
  UploadPage.file (view w) = Some f ->
  allWhiteSpace (UploadPage.subject (view w)) = false ->
  backend w (length (requests w))
    (UploadUI.uploadRequest f (UploadPage.subject (view w)) "cli_user") = Resolved data ->
  let w' := exec UploadPage.handleUpload w in
  view w' = {| UploadPage.file := None; UploadPage.subject := "";
               UploadPage.uploading := false; UploadPage.uploadResult := data |} /\
  toasts w'
    = toasts w ++
      [{| level := ToastSuccess;
          text := "Upload successful! Your document has been processed and is ready for questions." |}] /\
  requests (exec UploadPage.handleUpload w') = requests w' /\
  toasts (exec UploadPage.handleUpload w')
    = toasts w' ++ [{| level := ToastError;
                       text := "Please select a file and enter a subject." |}].
Proof.
  intros Hf Hs Hback. unfold_upload. run_handler.
  rewrite Hf, truthy_trim, Hs. simpl. rewrite Hback. simpl.
  repeat split; now rewrite ?Hf.
Qed.

Lemma handleUpload_resolved_sample :
  UploadPage.uploadResult
    (view (exec UploadPage.handleUpload
             (uploadWorld notesPdf "Physics"
                (fun _ _ => Resolved (VObj [("document_id", VStr "d1")])))))
  = VObj [("document_id", VStr "d1")].
Proof.
  destruct (handleUpload_resolved
              (uploadWorld notesPdf "Physics"
                 (fun _ _ => Resolved (VObj [("document_id", VStr "d1")])))
              notesPdf (VObj [("document_id", VStr "d1")]) eq_refl eq_refl eq_refl)
    as (Hv & _).
  now rewrite Hv.
Defined.

(** X16: the button and the handler disagree on a subject made of white
    space.  With a file chosen and such a subject the button is enabled
    (it tests the subject as typed), and pressing it sends nothing: the
    handler, which trims the subject, shows the notice asking for a file
    and a subject. *)
Theorem handleUpload_white_subject (w : World UploadPage.State) (f : File) :
  UploadPage.file (view w) = Some f ->
  UploadPage.subject (view w) <> "" ->
  allWhiteSpace (UploadPage.subject (view w)) = true ->
  UploadPage.uploading (view w) = false ->
  UploadPage.uploadDisabled (view w) = false /\
  requests (exec UploadPage.handleUpload w) = requests w /\
  toasts (exec UploadPage.handleUpload w)
    = toasts w ++ [{| level := ToastError;
                      text := "Please select a file and enter a subject." |}].
Proof.
  intros Hf Hne Hs Hu. unfold_upload. run_handler.
  rewrite Hf, truthy_trim, Hs, Hu. simpl.
  destruct (UploadPage.subject (view w)); [contradiction|]. repeat split.
Qed.

Lemma handleUpload_white_subject_sample :
  UploadPage.uploadDisabled (view (uploadWorld notesPdf "   " (fun _ _ => Rejected))) = false /\
  requests (exec UploadPage.handleUpload (uploadWorld notesPdf "   " (fun _ _ => Rejected)))
    = [].
Proof.
  destruct (handleUpload_white_subject (uploadWorld notesPdf "   " (fun _ _ => Rejected))
              notesPdf eq_refl ltac:(discriminate) eq_refl eq_refl) as (Hd & Hr & _).
  split; [exact Hd | exact Hr].
Defined.

Lemma upload_step_effect (e : UploadUI.Event) (w : World UploadPage.State) :
  UploadUI.holdsPdf (view w) ->
  UploadUI.holdsPdf (view (exec (UploadUI.step e) w)) /\
  (Forall UploadUI.pdfUpload (requests w) ->
   Forall UploadUI.pdfUpload (requests (exec (UploadUI.step e) w))).
Proof.
  unfold UploadUI.holdsPdf, UploadUI.isPdf. intros Hpdf.
  destruct e as [[f|]|text|]; simpl.
  - unfold_upload. run_handler.
    destruct (String.eqb (file_type f) "application/pdf") eqn:E; simpl.
    + split; [|auto]. intros f' Hf'. injection Hf' as <-. now apply String.eqb_eq.
    + split; auto.
  - run_handler. auto.
  - unfold_upload. run_handler. auto.
  - unfold_upload. run_handler.
    destruct (UploadPage.file (view w)) as [f|] eqn:Hf; simpl;
      [|split; [intros f' Hf'; congruence | auto]].
    rewrite truthy_trim.
    destruct (allWhiteSpace (UploadPage.subject (view w))) eqn:Hs; simpl.
    { rewrite Hf. auto. }
    assert (UploadUI.pdfUpload
              (UploadUI.uploadRequest f (UploadPage.subject (view w)) "cli_user")) as Hreq.
    { intros _. exists f, (UploadPage.subject (view w)). unfold UploadUI.isPdf. auto. }
    unfold UploadUI.uploadRequest in Hreq.
    destruct (backend w _ _); simpl.
    + rewrite Hf. split; [auto|]. intros Hlog. apply Forall_app. split; auto.
    + split; [intros f'; discriminate|]. intros Hlog. apply Forall_app. split; auto.
Qed.

(** X17: only PDF files are ever uploaded.  Whatever the user does, in
    whatever order, the file the page holds is a PDF, and every request to
    [/upload_pdf] carries a PDF, a subject that is not blank and the user
    id ["cli_user"]. *)
Theorem upload_requests_carry_pdf (events : list UploadUI.Event)
  (w : World UploadPage.State) :
  UploadUI.holdsPdf (view w) ->
  Forall UploadUI.pdfUpload (requests w) ->
  UploadUI.holdsPdf (view (UploadUI.run events w)) /\
  Forall UploadUI.pdfUpload (requests (UploadUI.run events w)).
Proof.
  revert w. induction events as [|e events IH]; intros w Hpdf Hlog; simpl.
  - now split.
  - destruct (upload_step_effect e w Hpdf) as (Hpdf' & Hlog'). apply IH; auto.
Qed.

Lemma upload_requests_carry_pdf_sample :
  Forall UploadUI.pdfUpload
    (requests (UploadUI.run
                 [UploadUI.SelectFile (Some notesTxt); UploadUI.ChangeSubject "Physics";
                  UploadUI.ClickUpload; UploadUI.SelectFile (Some notesPdf);
                  UploadUI.ClickUpload; UploadUI.ClickUpload]
                 noFileWorld)).
Proof.
  apply (upload_requests_carry_pdf
           [UploadUI.SelectFile (Some notesTxt); UploadUI.ChangeSubject "Physics";
            UploadUI.ClickUpload; UploadUI.SelectFile (Some notesPdf);
            UploadUI.ClickUpload; UploadUI.ClickUpload]
           noFileWorld).
  - intros f Hf. discriminate.
  - constructor.
Defined.

Example upload_sample_log :
  let w := UploadUI.run
             [UploadUI.SelectFile (Some notesTxt); UploadUI.ChangeSubject "Physics";
              UploadUI.ClickUpload; UploadUI.SelectFile (Some notesPdf);
              UploadUI.ClickUpload; UploadUI.ClickUpload]
             noFileWorld in
  requests w = [UploadUI.uploadRequest notesPdf "Physics" "cli_user";
                UploadUI.uploadRequest notesPdf "Physics" "cli_user"] /\
  map level (toasts w) = [ToastError; ToastError; ToastError; ToastError].
Proof. vm_compute. split; reflexivity. Qed.

(** ** The tutor page *)

Ltac unfold_tutor :=
  unfold TutorPage.handleSubmit, TutorPage.handleSend, apiService.chatTutor,
    TutorPage.setMessages, TutorPage.setMessage, TutorPage.setLoading, tutorRequest in *.

(** X18: a quick prompt wins over the draft and costs it.  Pressing a
    prompt sends the prompt, not what the input holds, and empties the
    input all the same; without an argument, or with the empty string as
    argument, the handler sends the draft. *)
Theorem handleSend_message_choice (w : World TutorPage.State) (prompt : string) :
  TutorPage.loading (view w) = false ->
  allWhiteSpace prompt = false ->
  (requests (exec (TutorPage.handleSend (Some prompt)) w)
     = requests w ++ [tutorRequest prompt] /\
   TutorPage.message (view (exec (TutorPage.handleSend (Some prompt)) w)) = "") /\
  (TutorPage.message (view w) = prompt ->
   requests (exec (TutorPage.handleSend None) w) = requests w ++ [tutorRequest prompt] /\
   requests (exec (TutorPage.handleSend (Some "")) w) = requests w ++ [tutorRequest prompt]).
Proof.
  intros Hl Hp.
  assert (truthy prompt = true) as Ht.
  { apply truthy_of_trim. now rewrite truthy_trim, Hp. }
  split; [|intros Hdraft]; unfold_tutor; run_handler;
    rewrite ?Ht, ?Hdraft, truthy_trim, Hp, Hl; simpl;
    repeat (break_match; simpl); repeat split.
Qed.

Lemma handleSend_message_choice_sample :
  requests (exec (TutorPage.handleSend (Some "Give me practice questions"))
              (tutorWorld "my half-written que" (fun _ _ => Rejected)))
    = [tutorRequest "Give me practice questions"] /\
  TutorPage.message
    (view (exec (TutorPage.handleSend (Some "Give me practice questions"))
             (tutorWorld "my half-written que" (fun _ _ => Rejected)))) = "".
Proof.
  apply (handleSend_message_choice
           (tutorWorld "my half-written que" (fun _ _ => Rejected))
           "Give me practice questions"); reflexivity.
Defined.

(** X19: what a message the tutor page accepts leads to.  The user's
    message always enters the transcript and the flag always ends down.
    If the request is rejected, or answered with a [null] body, nothing
    else enters and the notice "Something went wrong." is shown; otherwise
    a tutor message of category "Response" follows, whose content is the
    [response] field of the answer, and no notice is shown. *)
Theorem handleSend_outcome (w : World TutorPage.State) (prompt : string) :
  TutorPage.loading (view w) = false ->
  allWhiteSpace prompt = false ->
  let w' := exec (TutorPage.handleSend (Some prompt)) w in
  TutorPage.loading (view w') = false /\
  exists um : TutorPage.TutorMessage,
    TutorPage.type um = TutorPage.user /\ TutorPage.content um = VStr prompt /\
    match backend w (length (requests w)) (tutorRequest prompt) with
    | Rejected =>
        TutorPage.messages (view w') = TutorPage.messages (view w) ++ [um] /\
        toasts w' = toasts w ++ [{| level := ToastError; text := "Something went wrong." |}]
    | Resolved data =>
        match getProp data "response" with
        | None =>
            TutorPage.messages (view w') = TutorPage.messages (view w) ++ [um] /\
            toasts w' = toasts w ++ [{| level := ToastError; text := "Something went wrong." |}]
        | Some reply =>
            exists tm : TutorPage.TutorMessage,
              TutorPage.messages (view w') = TutorPage.messages (view w) ++ [um; tm] /\
              TutorPage.type tm = TutorPage.tutor /\
              TutorPage.content tm = reply /\
              TutorPage.category tm = Some "Response" /\
              toasts w' = toasts w
        end
    end.
Proof.
  intros Hl Hp.
  assert (truthy prompt = true) as Ht.
  { apply truthy_of_trim. now rewrite truthy_trim, Hp. }
  unfold_tutor. run_handler. rewrite Ht, truthy_trim, Hp, Hl. simpl.
  set (um := {| TutorPage.id := toString (clock w (ticks w));
                TutorPage.type := TutorPage.user; TutorPage.content := VStr prompt;
                TutorPage.timestamp := clock w (S (ticks w));
                TutorPage.category := None |}).
  destruct (backend w _ _) as [|data]; simpl.
  - split; [reflexivity|]. exists um. repeat split.
  - destruct (getProp data "response"); simpl.
    + split; [reflexivity|]. exists um. split; [reflexivity|]. split; [reflexivity|].
      eexists. split; [now rewrite <- app_assoc|]. repeat split.
    + split; [reflexivity|]. exists um. repeat split.
Qed.

Lemma handleSend_outcome_sample :
  TutorPage.loading
    (view (exec (TutorPage.handleSend (Some "Explain this in simpler terms"))
             (tutorWorld "" (fun _ _ => Resolved (VObj [("response", VStr "Sure.")])))))
  = false.
Proof.
  apply (handleSend_outcome
           (tutorWorld "" (fun _ _ => Resolved (VObj [("response", VStr "Sure.")])))
           "Explain this in simpler terms"); reflexivity.
Defined.

(** ** The research page *)

Ltac unfold_research :=
  unfold ResearchPage.search, ResearchPage.handleSubmit, ResearchPage.handleSearch,
    ResearchPage.setTopic, ResearchPage.setLoading, ResearchPage.setSuggestions,
    ResearchPage.setSearchHistory, apiService.getResearchSuggestions, researchRequest in *.

(** X20: what a search for a topic that is not blank leads to.  The flag
    always ends down and the topic stays in the input.  If the request is
    rejected, or answered with a [null] body, the suggestions on display
    and the history stay as they were and the notice "Something went
    wrong." is shown; otherwise the suggestions become the [suggestions]
    field of the answer ([undefined] when the answer has none), the success
    notice is shown, and the topic enters the history unless it is in
    it. *)
Theorem handleSearch_outcome (w : World ResearchPage.State) :
  allWhiteSpace (ResearchPage.topic (view w)) = false ->
  let s := view w in
  let w' := exec ResearchPage.handleSearch w in
  ResearchPage.loading (view w') = false /\
  ResearchPage.topic (view w') = ResearchPage.topic s /\
  requests w' = requests w ++ [researchRequest (ResearchPage.topic s)] /\
  match backend w (length (requests w)) (researchRequest (ResearchPage.topic s)) with
  | Rejected =>
      ResearchPage.suggestions (view w') = ResearchPage.suggestions s /\
      ResearchPage.searchHistory (view w') = ResearchPage.searchHistory s /\
      toasts w' = toasts w ++ [{| level := ToastError; text := "Something went wrong." |}]
  | Resolved data =>
      match getProp data "suggestions" with
      | None =>
          ResearchPage.suggestions (view w') = ResearchPage.suggestions s /\
          ResearchPage.searchHistory (view w') = ResearchPage.searchHistory s /\
          toasts w' = toasts w ++ [{| level := ToastError; text := "Something went wrong." |}]
      | Some sug =>
          ResearchPage.suggestions (view w') = sug /\
          ResearchPage.searchHistory (view w')
            = (if JSArray.includes (ResearchPage.searchHistory s) (ResearchPage.topic s)
               then ResearchPage.searchHistory s
               else ResearchPage.topic s :: firstn 9 (ResearchPage.searchHistory s)) /\
          toasts w' = toasts w ++ [{| level := ToastSuccess;
                                      text := "Operation completed successfully." |}]
      end
  end.
Proof.
  intros Ht. unfold_research. run_handler. rewrite truthy_trim, Ht. simpl.
  destruct (backend w _ _) as [|data]; simpl; [repeat split|].
  destruct (getProp data "suggestions"); simpl; [|repeat split].
  destruct (JSArray.includes _ _); simpl; repeat split.
Qed.

Lemma handleSearch_outcome_sample :
  ResearchPage.loading
    (view (exec ResearchPage.handleSearch
             (exec (ResearchPage.setTopic "Quantum Computing") (researchWorld flakyServer))))
  = false.
Proof.
  apply (handleSearch_outcome
           (exec (ResearchPage.setTopic "Quantum Computing") (researchWorld flakyServer))).
  reflexivity.
Defined.

Lemma searchSucceeds_not_blank (t : string) (w : World ResearchPage.State) :
  searchSucceeds t w = true -> allWhiteSpace t = false.
Proof.
  unfold searchSucceeds. rewrite truthy_trim. destruct (allWhiteSpace t); [discriminate|].
  reflexivity.
Qed.

(** X21: no blank topic ever enters the history: if every topic of the
    history is more than white space, so is every topic of it after any
    sequence of searches. *)
Theorem searchHistory_never_blank (ts : list string) (w : World ResearchPage.State) :
  Forall (fun t => allWhiteSpace t = false) (ResearchPage.searchHistory (view w)) ->
  Forall (fun t => allWhiteSpace t = false)
    (ResearchPage.searchHistory (view (runSearches ts w))).
Proof.
  revert w. induction ts as [|t ts IH]; intros w Hw; simpl; [assumption|].
  apply IH. rewrite search_history.
  destruct (searchSucceeds t w) eqn:Hok; simpl; [|assumption].
  destruct (JSArray.includes _ t); simpl; [assumption|].
  constructor; [now apply (searchSucceeds_not_blank t w)|].
  unfold JSArray.slice0. now apply Forall_take.
Qed.

Lemma searchHistory_never_blank_sample :
  Forall (fun t => allWhiteSpace t = false)
    (ResearchPage.searchHistory
       (view (runSearches ["AI"; "  "; ""; "Blockchain"; " "; "Physics"]
                (researchWorld (fun _ _ => Resolved (VObj [("suggestions", VStr "...")])))))).
Proof.
  apply (searchHistory_never_blank ["AI"; "  "; ""; "Blockchain"; " "; "Physics"]
           (researchWorld (fun _ _ => Resolved (VObj [("suggestions", VStr "...")])))).
  constructor.
Defined.

(** X22: a full history forgets its oldest topic.  When the history holds
    ten topics, none twice, a successful search for a new topic puts it in
    front, keeps the nine newest of the old ones in their order, and drops
    the tenth, which is then no longer in the history. *)
Theorem searchHistory_evicts_oldest (t : string) (w : World ResearchPage.State) :
  length (ResearchPage.searchHistory (view w)) = 10%nat ->
  NoDup (ResearchPage.searchHistory (view w)) ->
  searchSucceeds t w = true ->
  ~ In t (ResearchPage.searchHistory (view w)) ->
  exists oldest : string,
    ResearchPage.searchHistory (view w)
      = firstn 9 (ResearchPage.searchHistory (view w)) ++ [oldest] /\
    ResearchPage.searchHistory (view (exec (ResearchPage.search t) w))
      = t :: firstn 9 (ResearchPage.searchHistory (view w)) /\
    ~ In oldest (ResearchPage.searchHistory (view (exec (ResearchPage.search t) w))).
Proof.
  intros Hlen Hnd Hok Hnew.
  set (h := ResearchPage.searchHistory (view w)) in *.
  assert (exists oldest, h = firstn 9 h ++ [oldest]) as [oldest Hh].
  { pose proof (firstn_skipn 9 h) as Hsplit.
    assert (length (skipn 9 h) = 1%nat) as Hs by (rewrite length_skipn; lia).
    destruct (skipn 9 h) as [|x [|y r]]; try discriminate. now exists x. }
  exists oldest. split; [exact Hh|].
  assert (ResearchPage.searchHistory (view (exec (ResearchPage.search t) w))
          = t :: firstn 9 h) as Hafter.
  { rewrite search_history, Hok. fold h.
    destruct (JSArray.includes h t) eqn:E; [|reflexivity].
    apply includes_In in E. contradiction. }
  split; [exact Hafter|]. rewrite Hafter. intros [Ht | Hin].
  - apply Hnew. rewrite Hh, in_app_iff. right. left. congruence.
  - rewrite Hh in Hnd. apply NoDup_app in Hnd as (_ & Hdisj & _).
    apply (Hdisj oldest); [now apply list_elem_of_In|]. apply list_elem_of_singleton.
    reflexivity.
Qed.

Lemma searchHistory_evicts_oldest_sample :
  ResearchPage.searchHistory
    (view (exec (ResearchPage.search "k")
             (runSearches ["a"; "b"; "c"; "d"; "e"; "f"; "g"; "h"; "i"; "j"]
                (researchWorld (fun _ _ => Resolved (VObj [("suggestions", VStr "...")]))))))
  = ["k"; "j"; "i"; "h"; "g"; "f"; "e"; "d"; "c"; "b"].
Proof.
  destruct (searchHistory_evicts_oldest "k"
              (runSearches ["a"; "b"; "c"; "d"; "e"; "f"; "g"; "h"; "i"; "j"]
                 (researchWorld (fun _ _ => Resolved (VObj [("suggestions", VStr "...")])))))
    as (oldest & _ & Hafter & _).
  - reflexivity.
  - apply (bool_decide_unpack _). vm_compute. exact I.
  - reflexivity.
  - vm_compute. intuition discriminate.
  - rewrite Hafter. reflexivity.
Defined.

(** ** The analytics page *)

Ltac unfold_analytics :=
  unfold AnalyticsUI.session, AnalyticsUI.clickRange, AnalyticsPage.fetchAnalytics,
    AnalyticsPage.setAnalytics, AnalyticsPage.setLoading, AnalyticsPage.setTimeRange,
    apiService.getAnalytics, AnalyticsUI.analyticsRequest in *.

(** X23: a fetch that fails leaves the earlier analytics on display.  The
    fetch asks for the selected range and always ends with the flag down;
    when the request is rejected the analytics the page holds stay what
    they were and the notice is shown; when it is answered they become the
    answer, whatever it is, and nothing is shown. *)
Theorem fetchAnalytics_outcome (w : World AnalyticsPage.State) :
  let w' := exec AnalyticsPage.fetchAnalytics w in
  let req := AnalyticsUI.analyticsRequest (AnalyticsPage.timeRange (view w)) in
  requests w' = requests w ++ [req] /\
  AnalyticsPage.loading (view w') = false /\
  AnalyticsPage.timeRange (view w') = AnalyticsPage.timeRange (view w) /\
  match backend w (length (requests w)) req with
  | Rejected =>
      AnalyticsPage.analytics (view w') = AnalyticsPage.analytics (view w) /\
      toasts w' = toasts w ++ [{| level := ToastError; text := "Something went wrong." |}]
  | Resolved data =>
      AnalyticsPage.analytics (view w') = data /\ toasts w' = toasts w
  end.
Proof.
  unfold_analytics. run_handler.
  destruct (backend w _ _); simpl; repeat split.
Qed.

Lemma fetchAnalytics_start (w : World AnalyticsPage.State) :
  AnalyticsPage.loading (view (exec AnalyticsPage.fetchAnalytics w)) = false /\
  exists earlier,
    requests (exec AnalyticsPage.fetchAnalytics w)
    = earlier ++ [AnalyticsUI.analyticsRequest
                    (AnalyticsPage.timeRange (view (exec AnalyticsPage.fetchAnalytics w)))].
Proof.
  unfold_analytics. run_handler.
  destruct (backend w _ _); simpl; (split; [reflexivity|]); exists (requests w); reflexivity.
Qed.

Lemma clickRange_in_sync (r : string) (w : World AnalyticsPage.State) :
  AnalyticsPage.loading (view w) = false ->
  (exists earlier,
     requests w = earlier ++ [AnalyticsUI.analyticsRequest (AnalyticsPage.timeRange (view w))]) ->
  let w' := exec (AnalyticsUI.clickRange r) w in
  AnalyticsPage.loading (view w') = false /\
  exists earlier,
    requests w' = earlier ++ [AnalyticsUI.analyticsRequest (AnalyticsPage.timeRange (view w'))].
Proof.
  intros Hl [earlier Hreq]. unfold_analytics. run_handler.
  destruct (String.eqb (AnalyticsPage.timeRange (view w)) r) eqn:E; simpl.
  - split; [assumption|]. now exists earlier.
  - destruct (backend w _ _); simpl; (split; [reflexivity|]);
      exists (requests w); reflexivity.
Qed.

(** X24: the last request always asked for the range that is selected.
    From the mount on, whatever range buttons are pressed and whatever the
    backend answers, the flag is down once the handlers have run and the
    most recent request carries the [time_range] the page shows as
    selected; pressing the selected range sends nothing. *)
Theorem analytics_session_in_sync (ranges : list string) (w : World AnalyticsPage.State) :
  let w' := AnalyticsUI.session ranges w in
  AnalyticsPage.loading (view w') = false /\
  (exists earlier,
     requests w'
     = earlier ++ [AnalyticsUI.analyticsRequest (AnalyticsPage.timeRange (view w'))]) /\
  exec (AnalyticsUI.clickRange (AnalyticsPage.timeRange (view w'))) w' = w'.
Proof.
  assert (forall w0 : World AnalyticsPage.State,
            AnalyticsPage.loading (view w0) = false ->
            (exists earlier,
               requests w0
               = earlier ++ [AnalyticsUI.analyticsRequest (AnalyticsPage.timeRange (view w0))]) ->
            let w1 := fold_left (fun w r => exec (AnalyticsUI.clickRange r) w) ranges w0 in
            AnalyticsPage.loading (view w1) = false /\
            exists earlier,
              requests w1
              = earlier ++ [AnalyticsUI.analyticsRequest (AnalyticsPage.timeRange (view w1))])
    as Hfold.
  { induction ranges as [|r ranges IH]; intros w0 Hl Hs; simpl; [now split|].
    destruct (clickRange_in_sync r w0 Hl Hs) as [Hl' Hs']. now apply IH. }
  simpl. unfold AnalyticsUI.session.
  destruct (fetchAnalytics_start w) as [Hl Hs].
  destruct (Hfold _ Hl Hs) as [Hl' Hs']. split; [assumption|]. split; [assumption|].
  unfold AnalyticsUI.clickRange. run_handler. now rewrite String.eqb_refl.
Qed.

(** ** The dashboard *)

(** X25: the dashboard fails silently.  When the fetch run on mount is
    rejected, the flag is lowered, no notice is shown, the analytics stay
    [null], and every counter card is handed 0; a counter is also handed 0
    when the analytics are an object without its field. *)
Theorem dashboard_failed_fetch (w : World Dashboard.State) :
  Dashboard.analytics (view w) = VNull ->
  backend w (length (requests w)) (AnalyticsUI.analyticsRequest "30days") = Rejected ->
  let w' := exec Dashboard.fetchAnalytics w in
  Dashboard.loading (view w') = false /\
  toasts w' = toasts w /\
  Dashboard.analytics (view w') = VNull /\
  (forall k, DashboardUI.counter (Dashboard.analytics (view w')) k = VNum (JSNumber.ofZ 0)) /\
  (forall fields k,
     ~ In k (map fst fields) ->
     DashboardUI.counter (VObj fields) k = VNum (JSNumber.ofZ 0)).
Proof.
  intros Ha Hback. unfold Dashboard.fetchAnalytics, Dashboard.setAnalytics,
    Dashboard.setLoading, apiService.getAnalytics, AnalyticsUI.analyticsRequest in *.
  run_handler.
  change ("/analytics/progress/" ++ "cli_user")%string with "/analytics/progress/cli_user".
  change (default "30days" None) with "30days".
  rewrite Hback. simpl. rewrite Ha.
  repeat split. intros fields k Hk.
  unfold DashboardUI.counter, DashboardUI.optionalProp. simpl.
  now rewrite (assoc_absent k fields Hk).
Qed.

Lemma dashboard_failed_fetch_sample :
  DashboardUI.counter
    (Dashboard.analytics
       (view (exec Dashboard.fetchAnalytics (dashboardWorld (fun _ _ => Rejected)))))
    "total_questions"
  = VNum (JSNumber.ofZ 0).
Proof.
  destruct (dashboard_failed_fetch (dashboardWorld (fun _ _ => Rejected)) eq_refl eq_refl)
    as (_ & _ & _ & Hc & _).
  apply Hc.
Defined.
